(** * Codeforces API client: transport layer and facade

    A shallow embedding of [src/api/codeforces_api.py].  Python values are
    a first-order inductive type, exceptions are an error result, and the
    two pieces of state the program touches (the retriever object and the
    network) are threaded explicitly through a small state-and-error
    monad. *)

From Stdlib Require Import List String Ascii ZArith Lia Bool.
From Stdlib Require Import DecimalString.
Import ListNotations.
Open Scope string_scope.
Open Scope Z_scope.
Set Warnings "-register-all".

(** ** Python values *)

(** [class CodeforcesLanguage(Enum)] *)
Inductive CodeforcesLanguage : Type :=
| en
| ru.

(** The values that flow through the client: keyword arguments, parsed
    JSON and the members of the language enumeration.  A [dict] keeps its
    insertion order, so it is an association list; a [float] is kept as
    the 64 bits of its IEEE-754 representation, the program never
    computes with one.  Characters of a [str] are 8-bit code points. *)
Inductive pyval : Type :=
| PyNone
| PyBool (b : bool)
| PyInt (n : Z)
| PyFloat (bits : Z)
| PyStr (s : string)
| PyList (items : list pyval)
| PyDict (fields : list (string * pyval))
| PyEnum (l : CodeforcesLanguage).

(** ** Exceptions *)

Inductive exn : Type :=
| AssertionError (msg : option string)
| ValueError (args : list pyval)
| TypeError (msg : string)
| KeyError (key : pyval)
| LibraryError (name : string) (msg : string).

Inductive outcome (A : Type) : Type :=
| Ok (a : A)
| Raise (e : exn).
Arguments Ok {A} a.
Arguments Raise {A} e.

Definition obind {A B} (x : outcome A) (f : A -> outcome B) : outcome B :=
  match x with
  | Ok a => f a
  | Raise e => Raise e
  end.

Fixpoint omap {A B} (f : A -> outcome B) (l : list A) : outcome (list B) :=
  match l with
  | [] => Ok []
  | x :: l' => obind (f x) (fun y => obind (omap f l') (fun ys => Ok (y :: ys)))
  end.

(** ** Builtins *)

Definition type_name (v : pyval) : string :=
  match v with
  | PyNone => "NoneType"
  | PyBool _ => "bool"
  | PyInt _ => "int"
  | PyFloat _ => "float"
  | PyStr _ => "str"
  | PyList _ => "list"
  | PyDict _ => "dict"
  | PyEnum _ => "CodeforcesLanguage"
  end.

(** [repr(type(v))], as [format] prints it *)
Definition type_repr (v : pyval) : string :=
  match v with
  | PyEnum _ => "<enum 'CodeforcesLanguage'>"
  | _ => "<class '" ++ type_name v ++ "'>"
  end.

Definition str_of_Z (n : Z) : string := NilZero.string_of_int (Z.to_int n).

Definition language_name (l : CodeforcesLanguage) : string :=
  match l with
  | en => "en"
  | ru => "ru"
  end.

Definition isinstance_int (v : pyval) : bool :=
  match v with
  | PyInt _ | PyBool _ => true
  | _ => false
  end.

Definition isinstance_bool (v : pyval) : bool :=
  match v with
  | PyBool _ => true
  | _ => false
  end.

Definition isinstance_str (v : pyval) : bool :=
  match v with
  | PyStr _ => true
  | _ => false
  end.

Definition isinstance_list (v : pyval) : bool :=
  match v with
  | PyList _ => true
  | _ => false
  end.

Definition isinstance_CodeforcesLanguage (v : pyval) : bool :=
  match v with
  | PyEnum _ => true
  | _ => false
  end.

Definition is_None (v : pyval) : bool :=
  match v with
  | PyNone => true
  | _ => false
  end.

(** [len(v)] *)
Definition py_len (v : pyval) : outcome Z :=
  match v with
  | PyStr s => Ok (Z.of_nat (String.length s))
  | PyList items => Ok (Z.of_nat (List.length items))
  | PyDict fields => Ok (Z.of_nat (List.length fields))
  | _ => Raise (TypeError ("object of type '" ++ type_name v ++ "' has no len()"))
  end.

(** [d[key]] on the association list of a dict *)
Fixpoint dict_get (fields : list (string * pyval)) (key : string) : option pyval :=
  match fields with
  | [] => None
  | (k, v) :: rest => if String.eqb k key then Some v else dict_get rest key
  end.

(** [v[key]] for a string [key] *)
Definition py_getitem (v : pyval) (key : string) : outcome pyval :=
  match v with
  | PyDict fields =>
      match dict_get fields key with
      | Some x => Ok x
      | None => Raise (KeyError (PyStr key))
      end
  | PyList _ => Raise (TypeError "list indices must be integers or slices, not str")
  | PyStr _ => Raise (TypeError "string indices must be integers")
  | _ => Raise (TypeError ("'" ++ type_name v ++ "' object is not subscriptable"))
  end.

(** [v == s] for a string literal [s] *)
Definition py_eq_str (v : pyval) (s : string) : bool :=
  match v with
  | PyStr t => String.eqb t s
  | _ => false
  end.

Fixpoint chars (s : string) : list pyval :=
  match s with
  | EmptyString => []
  | String c s' => PyStr (String c EmptyString) :: chars s'
  end.

(** The elements [for x in v] yields: the items of a list, the keys of a
    dict, the characters of a string. *)
Definition py_iter (v : pyval) : outcome (list pyval) :=
  match v with
  | PyList items => Ok items
  | PyDict fields => Ok (map (fun kv => PyStr (fst kv)) fields)
  | PyStr s => Ok (chars s)
  | _ => Raise (TypeError ("'" ++ type_name v ++ "' object is not iterable"))
  end.

(** [sep.join(items)]: every item has to be a [str] *)
Fixpoint join_from (i : nat) (sep : string) (items : list pyval) : outcome string :=
  match items with
  | [] => Ok ""
  | x :: rest =>
      match x with
      | PyStr s =>
          match rest with
          | [] => Ok s
          | _ => obind (join_from (S i) sep rest) (fun t => Ok (s ++ sep ++ t))
          end
      | _ => Raise (TypeError ("sequence item " ++ str_of_Z (Z.of_nat i)
                                ++ ": expected str instance, " ++ type_name x ++ " found"))
      end
  end.

Definition str_join (sep : string) (items : list pyval) : outcome string :=
  join_from 0 sep items.

(** ** The classes of the [api] package

    [from api import Problem, RanklistRow, ...]: the record classes are
    imported, their constructors are not part of this module. *)
Inductive api_class : Type :=
| Problem
| RanklistRow
| RatingChange
| Hack
| User
| ProblemStatistics
| Contest
| Submission.

(** ** State *)

(** The attributes [__init__] gives a retriever. *)
Record CodeforcesDataRetriever : Type := mkRetriever {
  _base_from_language : list (CodeforcesLanguage * string);
  _language : CodeforcesLanguage
}.

(** What a call can read and change: the retriever object held by the
    client ([self._data_retriever]) and the URLs opened so far. *)
Record state : Type := mkState {
  retriever : CodeforcesDataRetriever;
  requests : list string
}.

Definition M (A : Type) : Type := state -> outcome A * state.

Definition ret {A} (a : A) : M A := fun st => (Ok a, st).

Definition raise {A} (e : exn) : M A := fun st => (Raise e, st).

Definition bind {A B} (m : M A) (f : A -> M B) : M B :=
  fun st =>
    match m st with
    | (Ok a, st') => f a st'
    | (Raise e, st') => (Raise e, st')
    end.

Definition lift {A} (x : outcome A) : M A := fun st => (x, st).

Definition get_self : M CodeforcesDataRetriever := fun st => (Ok (retriever st), st).

Definition put_self (r : CodeforcesDataRetriever) : M unit :=
  fun st => (Ok tt, mkState r (requests st)).

Declare Scope py_scope.
Delimit Scope py_scope with py.
Notation "x <- m ;; k" := (bind m (fun x => k))
  (at level 100, m at next level, right associativity) : py_scope.
Notation "m ;;; k" := (bind m (fun _ => k))
  (at level 100, right associativity) : py_scope.
Open Scope py_scope.

(** [assert cond, msg] *)
Definition assert_ (cond : bool) (msg : option string) : M unit :=
  if cond then ret tt else raise (AssertionError msg).

(** [try: body except KeyError as e: handler(e.args[0])] *)
Definition try_except_KeyError {A} (body : outcome A) (handler : pyval -> outcome A)
  : outcome A :=
  match body with
  | Raise (KeyError key) => handler key
  | _ => body
  end.

(** ** What the client takes from outside

    [repr] of the values whose text the client never fixes (str, float,
    list, dict); the HTTP exchange, [request.urlopen(url)] followed by
    [readall()], which answers by the URLs opened before and the one
    opened now; the UTF-8 decoder; [json.loads]; and the constructors of
    the record classes of the [api] package. *)
Class Runtime : Type := {
  builtin_repr : pyval -> string;
  urlopen_readall : list string -> string -> outcome (list Byte.byte);
  decode_utf8 : list Byte.byte -> outcome string;
  json_loads : string -> outcome pyval;
  instance : Type;
  construct : api_class -> pyval -> outcome instance
}.

(** ** The client *)

Section Client.

Context `{Runtime}.

(** [repr(v)] *)
Definition py_repr (v : pyval) : string :=
  match v with
  | PyNone => "None"
  | PyBool true => "True"
  | PyBool false => "False"
  | PyInt n => str_of_Z n
  | PyEnum l => "<CodeforcesLanguage." ++ language_name l ++ ": '" ++ language_name l ++ "'>"
  | _ => builtin_repr v
  end.

(** [str(v)] *)
Definition py_str (v : pyval) : string :=
  match v with
  | PyStr s => s
  | PyEnum l => "CodeforcesLanguage." ++ language_name l
  | _ => py_repr v
  end.

(** [CodeforcesLanguage(value)]: the member itself, or the member whose
    value is [value]. *)
Definition CodeforcesLanguage_of (value : pyval) : outcome CodeforcesLanguage :=
  match value with
  | PyEnum l => Ok l
  | PyStr s =>
      if String.eqb s "en" then Ok en
      else if String.eqb s "ru" then Ok ru
      else Raise (ValueError [PyStr (py_repr value ++ " is not a valid CodeforcesLanguage")])
  | _ => Raise (ValueError [PyStr (py_repr value ++ " is not a valid CodeforcesLanguage")])
  end.

(** *** CodeforcesDataRetriever *)

(** [CodeforcesDataRetriever.__init__(self, lang)] *)
Definition CodeforcesDataRetriever__init__ (lang : pyval) : outcome CodeforcesDataRetriever :=
  match lang with
  | PyEnum l =>
      Ok {| _base_from_language := [(en, "http://codeforces.com/api/");
                                    (ru, "http://codeforces.ru/api/")];
            _language := l |}
  | _ => Raise (AssertionError
                  (Some ("lang should be of type CodeforcesLanguage, not " ++ type_repr lang)))
  end.

(** The [language] property. *)
Definition language : M CodeforcesLanguage :=
  self <- get_self ;; ret (_language self).

(** The setter of [language]. *)
Definition set_language (value : pyval) : M unit :=
  assert_ (isinstance_CodeforcesLanguage value || isinstance_str value) None ;;;
  l <- lift (CodeforcesLanguage_of value) ;;
  self <- get_self ;;
  put_self {| _base_from_language := _base_from_language self; _language := l |}.

Definition CodeforcesLanguage_eqb (a b : CodeforcesLanguage) : bool :=
  match a, b with
  | en, en | ru, ru => true
  | _, _ => false
  end.

Fixpoint base_lookup (table : list (CodeforcesLanguage * string)) (l : CodeforcesLanguage)
  : option string :=
  match table with
  | [] => None
  | (k, b) :: rest => if CodeforcesLanguage_eqb k l then Some b else base_lookup rest l
  end.

(** The [base] property: [self._base_from_language[self.language]]. *)
Definition base : M string :=
  self <- get_self ;;
  l <- language ;;
  match base_lookup (_base_from_language self) l with
  | Some b => ret b
  | None => raise (KeyError (PyEnum l))
  end.

(** [{k: v for k, v in kwargs.items() if v is not None}] *)
Definition __get_valid_args (kwargs : list (string * pyval)) : list (string * pyval) :=
  filter (fun kv => negb (is_None (snd kv))) kwargs.

Definition __key_value_to_http_parameter (key_value : string * pyval) : outcome string :=
  let (key, value) := key_value in
  obind (match value with
         | PyList items => str_join ";" items
         | _ => Ok (py_str value)
         end)
        (fun value' => Ok (key ++ "=" ++ value')).

Definition __generate_url (method : string) (kwargs : list (string * pyval)) : M string :=
  b <- base ;;
  let url := b ++ method in
  match kwargs with
  | _ :: _ =>
      let args := __get_valid_args kwargs in
      params <- lift (omap __key_value_to_http_parameter args) ;;
      ret (url ++ "?" ++ String.concat "&" params)
  | [] => ret url
  end.

Definition __check_json (answer : string) : outcome pyval :=
  obind (json_loads answer) (fun values =>
    try_except_KeyError
      (obind (py_getitem values "status") (fun status =>
         if py_eq_str status "OK"
         then py_getitem values "result"
         else obind (py_getitem values "comment") (fun comment =>
                Raise (ValueError [comment]))))
      (fun key => Raise (ValueError [PyStr "Missed required field"; key]))).

(** [request.urlopen(url)] and [req.readall()]: one outbound call. *)
Definition urlopen (url : string) : M (list Byte.byte) :=
  fun st => (urlopen_readall (requests st) url,
             mkState (retriever st) (requests st ++ [url])).

Definition __get_data (url : string) : M pyval :=
  body <- urlopen url ;;
  answer <- lift (decode_utf8 body) ;;
  lift (__check_json answer).

Definition get_data (method : string) (kwargs : list (string * pyval)) : M pyval :=
  url <- __generate_url method kwargs ;;
  __get_data url.

(** *** CodeforcesAPI *)

(** [CodeforcesAPI.__init__(self, lang)]: the retriever the client
    holds as [self._data_retriever]. *)
Definition CodeforcesAPI__init__ (lang : pyval) : outcome CodeforcesDataRetriever :=
  obind (CodeforcesLanguage_of lang) (fun l =>
    CodeforcesDataRetriever__init__ (PyEnum l)).

(** [list(map(cls, data))] *)
Definition list_map (cls : api_class) (data : pyval) : M (list instance) :=
  items <- lift (py_iter data) ;;
  lift (omap (construct cls) items).

(** The integer an [int] (or a [bool], which is one) compares as. *)
Definition py_int (v : pyval) : outcome Z :=
  match v with
  | PyInt n => Ok n
  | PyBool true => Ok 1
  | PyBool false => Ok 0
  | _ => Raise (TypeError ("'<' not supported between instances of 'int' and '"
                           ++ type_name v ++ "'"))
  end.

Definition contest_hacks (contest_id : pyval) : M (list instance) :=
  assert_ (isinstance_int contest_id) None ;;;
  data <- get_data "contest.hacks" [("contestId", contest_id)] ;;
  list_map Hack data.

Definition contest_list (gym : pyval) : M (list instance) :=
  data <- get_data "contest.list" [("gym", gym)] ;;
  list_map Contest data.

Definition contest_standings (contest_id from_ count handles : pyval)
  : M (list (string * list instance)) :=
  assert_ (isinstance_int contest_id)
    (Some ("contest_id should be of type int, not " ++ type_repr contest_id)) ;;;
  assert_ (isinstance_int from_)
    (Some ("from_ should be of type int, not " ++ type_repr from_)) ;;;
  assert_ (isinstance_int count || is_None count)
    (Some ("count should be of type int, not " ++ type_repr count)) ;;;
  assert_ (isinstance_list handles || is_None handles)
    (Some ("handles should be of type list of str, not " ++ type_repr handles)) ;;;
  n <- lift (py_len handles) ;;
  assert_ (n <=? 10000) (Some "No more than 10000 handles is accepted") ;;;
  data <- get_data "contest.standings"
            [("contestId", contest_id); ("count", count); ("handles", handles);
             ("from", from_)] ;;
  c <- lift (py_getitem data "contest") ;;
  contest <- list_map Contest c ;;
  p <- lift (py_getitem data "problems") ;;
  problems <- list_map Problem p ;;
  r <- lift (py_getitem data "rows") ;;
  rows <- list_map RanklistRow r ;;
  ret [("contest", contest); ("problems", problems); ("rows", rows)].

Definition contest_status (contest_id handle from_ count : pyval) : M (list instance) :=
  assert_ (isinstance_int contest_id) None ;;;
  assert_ (isinstance_str handle || is_None handle) None ;;;
  assert_ (isinstance_int from_) None ;;;
  assert_ (isinstance_int count || is_None count) None ;;;
  data <- get_data "contest.status"
            [("contestId", contest_id); ("handle", handle); ("count", count);
             ("from", from_)] ;;
  list_map Submission data.

Definition problemset_problems (tags : pyval) : M (list (string * list instance)) :=
  data <- get_data "problemset.problems" [("tags", tags)] ;;
  p <- lift (py_getitem data "problems") ;;
  problems <- list_map Problem p ;;
  ps <- lift (py_getitem data "problemStatistics") ;;
  problemStatistics <- list_map ProblemStatistics ps ;;
  ret [("problems", problems); ("problemStatistics", problemStatistics)].

Definition problemset_recent_status (count : pyval) : M (list instance) :=
  assert_ (isinstance_int count) None ;;;
  n <- lift (py_int count) ;;
  assert_ ((0 <? n) && (n <=? 1000)) None ;;;
  data <- get_data "problemset.recentStatus" [("count", count)] ;;
  list_map Submission data.

Definition user_info (handles : pyval) : M (list instance) :=
  assert_ (isinstance_list handles) None ;;;
  data <- get_data "user.info" [("handles", handles)] ;;
  list_map User data.

Definition user_rated_list (active_only : pyval) : M (list instance) :=
  assert_ (isinstance_bool active_only) None ;;;
  data <- get_data "user.ratedList" [("activeOnly", active_only)] ;;
  list_map User data.

Definition user_rating (handle : pyval) : M (list instance) :=
  assert_ (isinstance_str handle)
    (Some ("Handle should have str type, not " ++ type_repr handle)) ;;;
  data <- get_data "user.rating" [("handle", handle)] ;;
  list_map RatingChange data.

Definition user_status (handle from_ count : pyval) : M (list instance) :=
  assert_ (isinstance_str handle) None ;;;
  assert_ (isinstance_int from_) None ;;;
  assert_ (isinstance_int count || is_None count) None ;;;
  data <- get_data "user.status"
            [("handle", handle); ("count", count); ("from", from_)] ;;
  list_map Submission data.

(** *** The operations a caller has

    Every method and property of the two classes that reads or uses the
    retriever, the setter of [language] apart. *)
Inductive operation : Type :=
| Op_get_data (method : string) (kwargs : list (string * pyval))
| Op_base
| Op_language
| Op_contest_hacks (contest_id : pyval)
| Op_contest_list (gym : pyval)
| Op_contest_standings (contest_id from_ count handles : pyval)
| Op_contest_status (contest_id handle from_ count : pyval)
| Op_problemset_problems (tags : pyval)
| Op_problemset_recent_status (count : pyval)
| Op_user_info (handles : pyval)
| Op_user_rated_list (active_only : pyval)
| Op_user_rating (handle : pyval)
| Op_user_status (handle from_ count : pyval).

(** The state an operation leaves, whatever it returns or raises. *)
Definition after (op : operation) (st : state) : state :=
  match op with
  | Op_get_data method kwargs => snd (get_data method kwargs st)
  | Op_base => snd (base st)
  | Op_language => snd (language st)
  | Op_contest_hacks contest_id => snd (contest_hacks contest_id st)
  | Op_contest_list gym => snd (contest_list gym st)
  | Op_contest_standings contest_id from_ count handles =>
      snd (contest_standings contest_id from_ count handles st)
  | Op_contest_status contest_id handle from_ count =>
      snd (contest_status contest_id handle from_ count st)
  | Op_problemset_problems tags => snd (problemset_problems tags st)
  | Op_problemset_recent_status count => snd (problemset_recent_status count st)
  | Op_user_info handles => snd (user_info handles st)
  | Op_user_rated_list active_only => snd (user_rated_list active_only st)
  | Op_user_rating handle => snd (user_rating handle st)
  | Op_user_status handle from_ count => snd (user_status handle from_ count st)
  end.

End Client.

(** ** A runtime to run the client on

    The server answers every request with an empty body and the parser
    reads every text as [parsed]; a record is kept as its class and the
    value it was built from. *)
Definition demo_runtime (parsed : pyval) : Runtime := {|
  builtin_repr := fun _ => "?";
  urlopen_readall := fun _ _ => Ok [];
  decode_utf8 := fun _ => Ok "";
  json_loads := fun _ => Ok parsed;
  instance := api_class * pyval;
  construct := fun cls v => Ok (cls, v)
|}.

(** The envelopes of the service: success and failure. *)
Definition ok_envelope (result : pyval) : pyval :=
  PyDict [("status", PyStr "OK"); ("result", result)].

Definition failed_envelope (comment : string) : pyval :=
  PyDict [("status", PyStr "FAILED"); ("comment", PyStr comment)].

(** A result of contest.standings: one contest object, one problem, no
    rows. *)
Definition standings_result : pyval :=
  PyDict [("contest", PyDict [("id", PyInt 374); ("name", PyStr "Round 220")]);
          ("problems", PyList [PyDict [("contestId", PyInt 374); ("index", PyStr "A")]]);
          ("rows", PyList [])].

(** The keyword arguments [contest_standings(374)] passes on. *)
Definition standings_kwargs (handles : pyval) : list (string * pyval) :=
  [("contestId", PyInt 374); ("count", PyNone); ("handles", handles);
   ("from", PyInt 1)].

(** A client as [CodeforcesAPI(lang)] leaves it, before any request. *)
Definition fresh (l : CodeforcesLanguage) : state :=
  mkState {| _base_from_language := [(en, "http://codeforces.com/api/");
                                     (ru, "http://codeforces.ru/api/")];
             _language := l |} [].

(** The three ways an envelope lacks a field the check reads. *)
Inductive missing_required (fields : list (string * pyval)) : string -> Prop :=
| missing_status :
    dict_get fields "status" = None ->
    missing_required fields "status"
| missing_comment (status : pyval) :
    dict_get fields "status" = Some status ->
    status <> PyStr "OK" ->
    dict_get fields "comment" = None ->
    missing_required fields "comment"
| missing_result :
    dict_get fields "status" = Some (PyStr "OK") ->
    dict_get fields "result" = None ->
    missing_required fields "result".

(** A computation that leaves the retriever as it found it. *)
Definition keeps_retriever {A} (m : M A) : Prop :=
  forall st, retriever (snd (m st)) = retriever st.

(** A computation that leaves the whole state as it found it. *)
Definition silent {A} (m : M A) : Prop :=
  forall st, snd (m st) = st.

(** A computation that opens at most one URL and changes nothing else. *)
Definition at_most_one_request {A} (m : M A) : Prop :=
  forall st,
    snd (m st) = st \/
    exists url, snd (m st) = mkState (retriever st) (List.app (requests st) [url]).

(** The value passed for an optional integer argument: None when it is
    left out. *)
Definition optional_int (n : option Z) : pyval :=
  match n with
  | Some c => PyInt c
  | None => PyNone
  end.

(** The base URL the table of [__init__] holds for a language. *)
Definition base_of (l : CodeforcesLanguage) : string :=
  match l with
  | en => "http://codeforces.com/api/"
  | ru => "http://codeforces.ru/api/"
  end.

(** The states a program can bring a client to: one of the two
    constructors, then any sequence of operations and of assignments to
    [language]. *)
Inductive reachable `{Runtime} : state -> Prop :=
| reach_retriever (lang : pyval) (r : CodeforcesDataRetriever) :
    CodeforcesDataRetriever__init__ lang = Ok r ->
    reachable (mkState r [])
| reach_api (lang : pyval) (r : CodeforcesDataRetriever) :
    CodeforcesAPI__init__ lang = Ok r ->
    reachable (mkState r [])
| reach_operation (op : operation) (st : state) :
    reachable st ->
    reachable (after op st)
| reach_set_language (value : pyval) (st : state) :
    reachable st ->
    reachable (snd (set_language value st)).

(** The value passed for an optional string argument. *)
Definition optional_str (s : option string) : pyval :=
  match s with
  | Some h => PyStr h
  | None => PyNone
  end.

(** A runtime whose network is down: every [urlopen] raises. *)
Definition offline_runtime : Runtime := {|
  builtin_repr := fun _ => "?";
  urlopen_readall := fun _ _ => Raise (LibraryError "URLError" "unreachable");
  decode_utf8 := fun _ => Ok "";
  json_loads := fun _ => Ok PyNone;
  instance := api_class * pyval;
  construct := fun cls v => Ok (cls, v)
|}.

(** ** Reading a query string

    The parameters a server reads off a URL: the text after the first
    "?", cut at every "&", each piece named by what stands before its
    first "=". *)
Fixpoint contains (c : ascii) (s : string) : bool :=
  match s with
  | EmptyString => false
  | String a s' => Ascii.eqb a c || contains c s'
  end.

Fixpoint before (c : ascii) (s : string) : string :=
  match s with
  | EmptyString => EmptyString
  | String a s' => if Ascii.eqb a c then EmptyString else String a (before c s')
  end.

Fixpoint after_first (c : ascii) (s : string) : string :=
  match s with
  | EmptyString => EmptyString
  | String a s' => if Ascii.eqb a c then s' else after_first c s'
  end.

(** [s.split(c)] *)
Fixpoint split_on (c : ascii) (s : string) : list string :=
  match s with
  | EmptyString => [EmptyString]
  | String a s' =>
      if Ascii.eqb a c then EmptyString :: split_on c s'
      else match split_on c s' with
           | p :: ps => String a p :: ps
           | [] => [String a EmptyString]
           end
  end.

Definition query_parameters (url : string) : list string :=
  match after_first "?" url with
  | EmptyString => []
  | query => split_on "&" query
  end.

Definition query_keys (url : string) : list string :=
  map (before "=") (query_parameters url).

(** An argument whose rendering brings no separator of its own: no "&"
    and no "=" in the key, no "&" in the text of the value. *)
Definition separator_free `{Runtime} (key_value : string * pyval) : bool :=
  let (key, value) := key_value in
  negb (contains "&" key) && negb (contains "=" key) &&
  match value with
  | PyList items =>
      forallb (fun x => match x with
                        | PyStr s => negb (contains "&" s)
                        | _ => false
                        end) items
  | _ => negb (contains "&" (py_str value))
  end.

(** * Properties *)

Section ClientFacts.

Context `{Runtime}.

(** ** The monad *)

Lemma bind_Ok {A B} (m : M A) (f : A -> M B) (st st1 : state) (a : A) :
  m st = (Ok a, st1) -> bind m f st = f a st1.
Proof. intros E. unfold bind. rewrite E. reflexivity. Qed.

Lemma bind_Raise {A B} (m : M A) (f : A -> M B) (st st1 : state) (e : exn) :
  m st = (Raise e, st1) -> bind m f st = (Raise e, st1).
Proof. intros E. unfold bind. rewrite E. reflexivity. Qed.

Lemma bind_inv {A B} (m : M A) (f : A -> M B) (st st' : state) (b : B) :
  bind m f st = (Ok b, st') ->
  exists a st1, m st = (Ok a, st1) /\ f a st1 = (Ok b, st').
Proof.
  unfold bind. destruct (m st) as [[a|e] st1]; intros E.
  - exists a, st1. auto.
  - discriminate E.
Qed.

Lemma assert_inv (cond : bool) (msg : option string) (st st' : state) (u : unit) :
  assert_ cond msg st = (Ok u, st') -> cond = true /\ st' = st.
Proof.
  unfold assert_, ret, raise. destruct cond; intros E; [|discriminate E].
  injection E as _ <-. auto.
Qed.

Lemma lift_inv {A} (x : outcome A) (st st' : state) (a : A) :
  lift x st = (Ok a, st') -> x = Ok a /\ st' = st.
Proof. unfold lift. intros E. injection E as -> <-. auto. Qed.

Lemma silent_ret {A} (a : A) : silent (ret a).
Proof. intros st. reflexivity. Qed.

Lemma silent_raise {A} (e : exn) : silent (@raise A e).
Proof. intros st. reflexivity. Qed.

Lemma silent_lift {A} (x : outcome A) : silent (lift x).
Proof. intros st. reflexivity. Qed.

Lemma silent_get_self : silent get_self.
Proof. intros st. reflexivity. Qed.

Lemma silent_assert (cond : bool) (msg : option string) : silent (assert_ cond msg).
Proof. intros st. unfold assert_. destruct cond; reflexivity. Qed.

Lemma silent_bind {A B} (m : M A) (f : A -> M B) :
  silent m -> (forall a, silent (f a)) -> silent (bind m f).
Proof.
  intros Hm Hf st. unfold bind. specialize (Hm st).
  destruct (m st) as [[a|e] st1]; cbn [snd] in *; subst st1.
  - apply Hf.
  - reflexivity.
Qed.

Lemma silent_keeps {A} (m : M A) : silent m -> keeps_retriever m.
Proof. intros Hm st. rewrite Hm. reflexivity. Qed.

Lemma keeps_bind {A B} (m : M A) (f : A -> M B) :
  keeps_retriever m -> (forall a, keeps_retriever (f a)) -> keeps_retriever (bind m f).
Proof.
  intros Hm Hf st. unfold bind. specialize (Hm st).
  destruct (m st) as [[a|e] st1]; cbn [snd] in *.
  - rewrite Hf. exact Hm.
  - exact Hm.
Qed.

Lemma keeps_urlopen (url : string) : keeps_retriever (urlopen url).
Proof. intros st. reflexivity. Qed.

Create HintDb frame.
#[local] Hint Resolve silent_ret silent_raise silent_lift silent_get_self
  silent_assert keeps_urlopen : frame.
#[local] Hint Extern 2 (silent (bind _ _)) =>
  apply silent_bind; [|intros ?] : frame.
#[local] Hint Extern 2 (keeps_retriever (bind _ _)) =>
  apply keeps_bind; [|intros ?] : frame.
#[local] Hint Extern 5 (keeps_retriever _) => apply silent_keeps : frame.

(** ** The transport layer *)

Lemma py_eq_str_true (v : pyval) (s : string) :
  py_eq_str v s = true <-> v = PyStr s.
Proof.
  destruct v; simpl; try (split; [discriminate | intros E; discriminate E]).
  rewrite String.eqb_eq. split; [intros -> | intros E; injection E]; auto.
Qed.

Lemma py_eq_str_false (v : pyval) (s : string) :
  v <> PyStr s -> py_eq_str v s = false.
Proof.
  intros N. destruct (py_eq_str v s) eqn:E; [|reflexivity].
  apply py_eq_str_true in E. contradiction.
Qed.

(** C1: a response whose body parses to an object with "status" equal
    to "OK" and "result" equal to X makes the envelope check return
    exactly X, and X is what [__get_data] hands back to the facade. *)
Theorem check_json_ok_returns_result (answer : string)
    (fields : list (string * pyval)) (X : pyval) :
  json_loads answer = Ok (PyDict fields) ->
  dict_get fields "status" = Some (PyStr "OK") ->
  dict_get fields "result" = Some X ->
  __check_json answer = Ok X /\
  forall url st body,
    urlopen_readall (requests st) url = Ok body ->
    decode_utf8 body = Ok answer ->
    fst (__get_data url st) = Ok X.
Proof.
  intros Hload Hstatus Hresult.
  assert (Hcheck : __check_json answer = Ok X).
  { unfold __check_json. rewrite Hload. cbn [obind py_getitem].
    rewrite Hstatus. cbn [obind py_eq_str]. rewrite String.eqb_refl.
    rewrite Hresult. reflexivity. }
  split; [exact Hcheck|].
  intros url st body Hget Hdec.
  unfold __get_data, bind, urlopen, lift. rewrite Hget, Hdec, Hcheck. reflexivity.
Qed.

(** C2: a response whose body parses to an object with a "status"
    other than "OK" and a "comment" equal to c makes the envelope check
    raise ValueError(c). *)
Theorem check_json_failed_raises_comment (answer : string)
    (fields : list (string * pyval)) (status c : pyval) :
  json_loads answer = Ok (PyDict fields) ->
  dict_get fields "status" = Some status ->
  status <> PyStr "OK" ->
  dict_get fields "comment" = Some c ->
  __check_json answer = Raise (ValueError [c]).
Proof.
  intros Hload Hstatus Hne Hcomment.
  unfold __check_json. rewrite Hload. cbn [obind py_getitem].
  rewrite Hstatus. cbn [obind].
  rewrite (py_eq_str_false _ _ Hne).
  rewrite Hcomment. reflexivity.
Qed.

(** C3: a response whose body parses to an object that lacks "status",
    or "comment" when the status is not "OK", or "result" when it is,
    makes the envelope check raise
    ValueError('Missed required field', name) with the name of the
    missing field; no error that carries a server comment equals it. *)
Theorem check_json_missing_field (answer : string)
    (fields : list (string * pyval)) (name : string) :
  json_loads answer = Ok (PyDict fields) ->
  missing_required fields name ->
  __check_json answer
    = Raise (ValueError [PyStr "Missed required field"; PyStr name]) /\
  forall c : pyval,
    ValueError [PyStr "Missed required field"; PyStr name] <> ValueError [c].
Proof.
  intros Hload Hmiss. split; [|intros c E; discriminate E].
  unfold __check_json. rewrite Hload. cbn [obind py_getitem].
  destruct Hmiss as [Hs | status Hs Hne Hc | Hs Hr].
  - rewrite Hs. reflexivity.
  - rewrite Hs. cbn [obind]. rewrite (py_eq_str_false _ _ Hne).
    rewrite Hc. reflexivity.
  - rewrite Hs. cbn [obind py_eq_str]. rewrite String.eqb_refl.
    rewrite Hr. reflexivity.
Qed.

Lemma join_from_strs (sep : string) (ss : list string) :
  forall i, join_from i sep (map PyStr ss) = Ok (String.concat sep ss).
Proof.
  induction ss as [|s ss IH]; intros i; [reflexivity|].
  destruct ss as [|s' ss]; [reflexivity|].
  change (join_from i sep (map PyStr (s :: s' :: ss)))
    with (obind (join_from (S i) sep (map PyStr (s' :: ss)))
                (fun t => Ok (s ++ sep ++ t))).
  rewrite IH. reflexivity.
Qed.

Lemma valid_args_In (kwargs : list (string * pyval)) (k : string) (v : pyval) :
  In (k, v) (__get_valid_args kwargs) <-> In (k, v) kwargs /\ v <> PyNone.
Proof.
  unfold __get_valid_args. rewrite filter_In. cbn [snd].
  split; intros [Hin Hv]; split; auto.
  - intros ->. discriminate Hv.
  - destruct v; try reflexivity. contradiction.
Qed.

Lemma unique_binding (kwargs : list (string * pyval)) (k : string) (v w : pyval) :
  NoDup (map fst kwargs) -> In (k, v) kwargs -> In (k, w) kwargs -> v = w.
Proof.
  induction kwargs as [|[k0 v0] rest IH]; intros Hnd Hv Hw; [contradiction|].
  cbn [map fst] in Hnd. inversion Hnd as [|? ? Hnotin Hnd']; subst.
  destruct Hv as [Ev | Hv], Hw as [Ew | Hw].
  - congruence.
  - injection Ev as -> ->. exfalso. apply Hnotin.
    apply (in_map fst) in Hw. exact Hw.
  - injection Ew as -> ->. exfalso. apply Hnotin.
    apply (in_map fst) in Hv. exact Hv.
  - auto.
Qed.

Lemma base_value (st : state) (b : string) :
  base_lookup (_base_from_language (retriever st)) (_language (retriever st)) = Some b ->
  base st = (Ok b, st).
Proof.
  intros Hb. unfold base, language, bind, get_self, ret. cbn. rewrite Hb. reflexivity.
Qed.

Lemma generate_url_value (method : string) (kwargs : list (string * pyval))
    (st : state) (b : string) :
  base_lookup (_base_from_language (retriever st)) (_language (retriever st)) = Some b ->
  kwargs <> [] ->
  __generate_url method kwargs st
    = (obind (omap __key_value_to_http_parameter (__get_valid_args kwargs))
         (fun params => Ok ((b ++ method) ++ "?" ++ String.concat "&" params)), st).
Proof.
  intros Hb Hne. unfold __generate_url, bind. rewrite (base_value _ _ Hb).
  destruct kwargs as [|kv rest]; [contradiction|].
  unfold lift, ret.
  destruct (omap __key_value_to_http_parameter (__get_valid_args (kv :: rest)));
    reflexivity.
Qed.

(** A keyword bound to None is not among the keys of the [key=value]
    parameters the query string is assembled from: the URL is the base,
    the method, "?" and the "&"-joined rendering of exactly the
    arguments whose value is not None. *)
Theorem generate_url_omits_None (method : string) (kwargs : list (string * pyval))
    (k : string) (st : state) (b : string) :
  base_lookup (_base_from_language (retriever st)) (_language (retriever st)) = Some b ->
  NoDup (map fst kwargs) ->
  In (k, PyNone) kwargs ->
  __generate_url method kwargs st
    = (obind (omap __key_value_to_http_parameter (__get_valid_args kwargs))
         (fun params => Ok ((b ++ method) ++ "?" ++ String.concat "&" params)), st) /\
  ~ In k (map fst (__get_valid_args kwargs)) /\
  forall k' v, In (k', v) (__get_valid_args kwargs) <-> In (k', v) kwargs /\ v <> PyNone.
Proof.
  intros Hb Hnd Hin. split; [|split].
  - apply generate_url_value; [exact Hb|]. intros ->. contradiction.
  - intros Hk. apply in_map_iff in Hk. destruct Hk as [[k' v] [Ek Hv]].
    cbn [fst] in Ek. subst k'. apply valid_args_In in Hv. destruct Hv as [Hv Hne].
    apply Hne. exact (unique_binding kwargs k v PyNone Hnd Hv Hin).
  - intros k' v. apply valid_args_In.
Qed.

Lemma render_list_of_strs (key : string) (ss : list string) :
  __key_value_to_http_parameter (key, PyList (map PyStr ss))
    = Ok (key ++ "=" ++ String.concat ";" ss).
Proof.
  unfold __key_value_to_http_parameter, str_join.
  rewrite join_from_strs. reflexivity.
Qed.

Lemma generate_url_one_list (method key : string) (ss : list string)
    (st : state) (b : string) :
  base_lookup (_base_from_language (retriever st)) (_language (retriever st)) = Some b ->
  __generate_url method [(key, PyList (map PyStr ss))] st
    = (Ok ((b ++ method) ++ "?" ++ key ++ "=" ++ String.concat ";" ss), st).
Proof.
  intros Hb. rewrite (generate_url_value method _ st b Hb) by discriminate.
  cbn [__get_valid_args filter snd is_None negb omap].
  rewrite render_list_of_strs. reflexivity.
Qed.

(** C5: a list of strings is rendered as its elements joined with ";",
    every value that is not a list as [str(value)], each after the key
    and "="; the URL of a call with one list-valued parameter shows
    the joined text. *)
Theorem key_value_to_http_parameter_serializes (key : string) :
  (forall ss : list string,
     __key_value_to_http_parameter (key, PyList (map PyStr ss))
       = Ok (key ++ "=" ++ String.concat ";" ss)) /\
  (forall value : pyval,
     isinstance_list value = false ->
     __key_value_to_http_parameter (key, value) = Ok (key ++ "=" ++ py_str value)) /\
  (forall method st b ss,
     base_lookup (_base_from_language (retriever st)) (_language (retriever st)) = Some b ->
     __generate_url method [(key, PyList (map PyStr ss))] st
       = (Ok ((b ++ method) ++ "?" ++ key ++ "=" ++ String.concat ";" ss), st)).
Proof.
  split; [|split].
  - apply render_list_of_strs.
  - intros value Hv. destruct value; try reflexivity. discriminate Hv.
  - intros method st b ss Hb. apply generate_url_one_list. exact Hb.
Qed.

(** ** What a call leaves of the state *)

Ltac frame := cbv zeta; eauto 30 with frame.

Lemma silent_language : silent language.
Proof. unfold language. frame. Qed.

Lemma silent_base : silent base.
Proof.
  unfold base. apply silent_bind; [frame|]. intros self.
  apply silent_bind; [apply silent_language|]. intros l.
  destruct (base_lookup (_base_from_language self) l); frame.
Qed.

Lemma silent_generate_url (method : string) (kwargs : list (string * pyval)) :
  silent (__generate_url method kwargs).
Proof.
  unfold __generate_url. apply silent_bind; [apply silent_base|]. intros b.
  destruct kwargs; frame.
Qed.

Lemma keeps_get_data_of_url (url : string) : keeps_retriever (__get_data url).
Proof. unfold __get_data. frame. Qed.

Lemma keeps_get_data (method : string) (kwargs : list (string * pyval)) :
  keeps_retriever (get_data method kwargs).
Proof.
  unfold get_data. apply keeps_bind.
  - apply silent_keeps, silent_generate_url.
  - intros url. apply keeps_get_data_of_url.
Qed.

Lemma silent_list_map (cls : api_class) (data : pyval) : silent (list_map cls data).
Proof. unfold list_map. frame. Qed.

#[local] Hint Resolve silent_language silent_base silent_generate_url
  keeps_get_data silent_list_map : frame.

Lemma keeps_after (op : operation) : forall st, retriever (after op st) = retriever st.
Proof.
  destruct op; cbn [after];
    match goal with
    | |- forall st, retriever (snd (?m st)) = retriever st =>
        change (keeps_retriever m)
    end.
  - frame.
  - frame.
  - frame.
  - unfold contest_hacks. frame.
  - unfold contest_list. frame.
  - unfold contest_standings. frame.
  - unfold contest_status. frame.
  - unfold problemset_problems. frame.
  - unfold problemset_recent_status. frame.
  - unfold user_info. frame.
  - unfold user_rated_list. frame.
  - unfold user_rating. frame.
  - unfold user_status. frame.
Qed.

Lemma get_data_of_url_requests (url : string) (st : state) :
  snd (__get_data url st) = mkState (retriever st) (requests st ++ [url]).
Proof.
  unfold __get_data, bind, urlopen, lift.
  destruct (urlopen_readall (requests st) url) as [body|e]; [|reflexivity].
  destruct (decode_utf8 body); reflexivity.
Qed.

Lemma omap_length {A B} (f : A -> outcome B) (l : list A) (l' : list B) :
  omap f l = Ok l' -> List.length l' = List.length l.
Proof.
  revert l'. induction l as [|x l IH]; intros l' E; cbn [omap] in E.
  - injection E as <-. reflexivity.
  - destruct (f x) as [y|e]; [|discriminate E]. cbn [obind] in E.
    destruct (omap f l) as [ys|e]; [|discriminate E]. cbn [obind] in E.
    injection E as <-. cbn [List.length]. f_equal. apply IH. reflexivity.
Qed.

(** ** The facade *)

(** C6: with an integer contest id and a list of more than 10000
    handles, [contest_standings] raises an AssertionError and leaves the
    state, the record of requests in it, as it was: nothing is sent. *)
Theorem contest_standings_rejects_long_handles
    (contest_id from_ count : pyval) (items : list pyval) (st : state) :
  isinstance_int contest_id = true ->
  10000 < Z.of_nat (List.length items) ->
  exists msg,
    contest_standings contest_id from_ count (PyList items) st
      = (Raise (AssertionError msg), st).
Proof.
  intros Hid Hlen. unfold contest_standings, bind, assert_. rewrite Hid.
  cbn [ret].
  destruct (isinstance_int from_); [|eexists; reflexivity]. cbn [ret].
  destruct (isinstance_int count || is_None count); [|eexists; reflexivity].
  cbn [ret isinstance_list orb lift py_len].
  apply Z.leb_gt in Hlen. rewrite Hlen. eexists. reflexivity.
Qed.

(** C7, on the code: with [handles] None and the other arguments of
    the types the assertions ask for, [contest_standings] raises the
    TypeError of [len(None)]; nothing is sent. *)
Theorem contest_standings_None_handles_raises
    (contest_id from_ count : pyval) (st : state) :
  isinstance_int contest_id = true ->
  isinstance_int from_ = true ->
  isinstance_int count || is_None count = true ->
  contest_standings contest_id from_ count PyNone st
    = (Raise (TypeError "object of type 'NoneType' has no len()"), st).
Proof.
  intros Hid Hfrom Hcount. unfold contest_standings, bind, assert_.
  rewrite Hid, Hfrom, Hcount. reflexivity.
Qed.

(** C8, on the code: [user_info] sends its request for a list of
    handles of any length, the lists of more than 10000 handles
    included; the URL carries all of them. *)
Theorem user_info_sends_any_number_of_handles
    (hs : list string) (st : state) (b : string) :
  base_lookup (_base_from_language (retriever st)) (_language (retriever st)) = Some b ->
  requests (snd (user_info (PyList (map PyStr hs)) st))
    = List.app (requests st)
        [(b ++ "user.info") ++ "?" ++ "handles=" ++ String.concat ";" hs].
Proof.
  intros Hb.
  pose proof (generate_url_one_list "user.info" "handles" hs st b Hb) as Hurl.
  change ("handles" ++ "=" ++ String.concat ";" hs)
    with ("handles=" ++ String.concat ";" hs) in Hurl.
  unfold user_info, get_data, bind, assert_. cbn [isinstance_list ret].
  rewrite Hurl.
  set (url := (b ++ "user.info") ++ "?" ++ "handles=" ++ String.concat ";" hs).
  pose proof (get_data_of_url_requests url st) as Hreq.
  destruct (__get_data url st) as [[data|e] st1]; cbn [snd] in Hreq; subst st1.
  - rewrite silent_list_map. reflexivity.
  - reflexivity.
Qed.

(** C9, as the code has it: the language of a retriever changes through
    the setter of [language] and through nothing else.  Every other
    operation leaves the retriever, language and table of bases, as it
    was; the setter, given a member of the enumeration or the value of
    one, puts that member in place, and leaves the retriever alone when
    it raises. *)
Theorem language_changes_only_through_setter (st : state) :
  (forall op, retriever (after op st) = retriever st) /\
  (forall value l,
     CodeforcesLanguage_of value = Ok l ->
     isinstance_CodeforcesLanguage value || isinstance_str value = true ->
     set_language value st
       = (Ok tt, mkState {| _base_from_language := _base_from_language (retriever st);
                            _language := l |} (requests st))) /\
  (forall value e,
     fst (set_language value st) = Raise e -> snd (set_language value st) = st).
Proof.
  split; [|split].
  - intros op. apply keeps_after.
  - intros value l Hl Hty. unfold set_language, bind, assert_, lift.
    rewrite Hty, Hl. reflexivity.
  - intros value e. unfold set_language, bind, assert_, lift.
    destruct (isinstance_CodeforcesLanguage value || isinstance_str value);
      [|reflexivity].
    cbn [ret]. destruct (CodeforcesLanguage_of value); [|reflexivity].
    cbn [get_self put_self fst]. discriminate.
Qed.

Ltac invert_run :=
  repeat match goal with
    | E : bind _ _ _ = (Ok _, _) |- _ =>
        apply bind_inv in E; destruct E as (? & ? & ? & E)
    | E : assert_ _ _ _ = (Ok _, _) |- _ =>
        apply assert_inv in E; destruct E as [? ?]; subst
    | E : lift _ _ = (Ok _, _) |- _ =>
        apply lift_inv in E; destruct E as [? ?]; subst
    | E : ret _ _ = (Ok _, _) |- _ =>
        unfold ret in E; injection E as ? ?; subst
    end.

Lemma list_map_inv (cls : api_class) (data : pyval) (st st' : state)
    (l : list instance) :
  list_map cls data st = (Ok l, st') ->
  obind (py_iter data) (omap (construct cls)) = Ok l /\ st' = st.
Proof.
  unfold list_map. intros E. invert_run.
  match goal with Hi : py_iter data = Ok _ |- _ => rewrite Hi end. auto.
Qed.

(** C10: when [contest_standings] returns, its "contest" entry is the
    list of the Contest records built from what iterating the "contest"
    field of the response yields, one per key when that field is an
    object; "problems" and "rows" are the lists of Problem and
    RanklistRow records built from the items of those fields. *)
Theorem contest_standings_builds_lists
    (contest_id from_ count handles : pyval) (st st' : state)
    (result : list (string * list instance)) :
  contest_standings contest_id from_ count handles st = (Ok result, st') ->
  exists data c p r contest problems rows,
    get_data "contest.standings"
      [("contestId", contest_id); ("count", count); ("handles", handles);
       ("from", from_)] st = (Ok data, st') /\
    py_getitem data "contest" = Ok c /\
    py_getitem data "problems" = Ok p /\
    py_getitem data "rows" = Ok r /\
    obind (py_iter c) (omap (construct Contest)) = Ok contest /\
    obind (py_iter p) (omap (construct Problem)) = Ok problems /\
    obind (py_iter r) (omap (construct RanklistRow)) = Ok rows /\
    result = [("contest", contest); ("problems", problems); ("rows", rows)] /\
    (forall fields,
       c = PyDict fields ->
       omap (construct Contest) (map (fun kv => PyStr (fst kv)) fields) = Ok contest /\
       List.length contest = List.length fields) /\
    (forall items, p = PyList items -> omap (construct Problem) items = Ok problems) /\
    (forall items, r = PyList items -> omap (construct RanklistRow) items = Ok rows).
Proof.
  intros E. unfold contest_standings in E. invert_run.
  repeat match goal with
    | L : list_map _ _ _ = (Ok _, _) |- _ =>
        apply list_map_inv in L; destruct L as [L ?]; subst
    end.
  match goal with
  | G : get_data _ _ _ = (Ok ?data, _),
    Hc : obind (py_iter ?c) (omap (construct Contest)) = Ok ?contest,
    Hp : obind (py_iter ?p) (omap (construct Problem)) = Ok ?problems,
    Hr : obind (py_iter ?r) (omap (construct RanklistRow)) = Ok ?rows |- _ =>
      exists data, c, p, r, contest, problems, rows;
      repeat (split; [assumption || reflexivity|])
  end.
  split; [|split].
  - intros fields ->. cbn [py_iter obind] in *. split; [assumption|].
    erewrite omap_length by eassumption. apply length_map.
  - intros items ->. assumption.
  - intros items ->. assumption.
Qed.

(** ** The envelope check, case by case *)

Lemma check_json_parsed (answer : string) (values : pyval) :
  json_loads answer = Ok values ->
  __check_json answer
    = try_except_KeyError
        (obind (py_getitem values "status") (fun status =>
           if py_eq_str status "OK"
           then py_getitem values "result"
           else obind (py_getitem values "comment") (fun comment =>
                  Raise (ValueError [comment]))))
        (fun key => Raise (ValueError [PyStr "Missed required field"; key])).
Proof. intros E. unfold __check_json. rewrite E. reflexivity. Qed.

Lemma getitem_not_dict (values : pyval) (key : string) :
  (forall fields, values <> PyDict fields) ->
  exists msg, py_getitem values key = Raise (TypeError msg).
Proof.
  intros Hnot. destruct values; cbn [py_getitem]; try (eexists; reflexivity).
  exfalso. exact (Hnot fields eq_refl).
Qed.

(** The check returns a value exactly when the body parses to an object
    whose "status" is the string "OK" and which has a "result"; the
    value is that result. *)
Theorem check_json_returns_iff (answer : string) (X : pyval) :
  __check_json answer = Ok X <->
  exists fields,
    json_loads answer = Ok (PyDict fields) /\
    dict_get fields "status" = Some (PyStr "OK") /\
    dict_get fields "result" = Some X.
Proof.
  split.
  - intros E. destruct (json_loads answer) as [values|e] eqn:Hload.
    + rewrite (check_json_parsed _ _ Hload) in E.
      destruct values; try discriminate E.
      exists fields. split; [reflexivity|]. cbn [py_getitem] in E.
      destruct (dict_get fields "status") as [status|]; [|discriminate E].
      cbn [obind] in E.
      destruct (py_eq_str status "OK") eqn:Hs.
      * apply py_eq_str_true in Hs. subst status. split; [reflexivity|].
        destruct (dict_get fields "result"); [|discriminate E].
        cbn in E. congruence.
      * destruct (dict_get fields "comment"); discriminate E.
    + unfold __check_json in E. rewrite Hload in E. discriminate E.
  - intros (fields & Hload & Hs & Hr).
    rewrite (check_json_parsed _ _ Hload). cbn [py_getitem].
    rewrite Hs. cbn [obind py_eq_str]. rewrite String.eqb_refl, Hr. reflexivity.
Qed.

(** A body that parses to anything but an object (a list, a string, a
    number, true, false, null) makes the check raise a TypeError: the
    handler of the check catches KeyError only. *)
Theorem check_json_not_object (answer : string) (values : pyval) :
  json_loads answer = Ok values ->
  (forall fields, values <> PyDict fields) ->
  exists msg, __check_json answer = Raise (TypeError msg).
Proof.
  intros Hload Hnot. rewrite (check_json_parsed _ _ Hload).
  destruct (getitem_not_dict values "status" Hnot) as [msg Hmsg].
  rewrite Hmsg. exists msg. reflexivity.
Qed.

(** Once the body has parsed, the check ends in one of four ways: the
    result, ValueError(comment), ValueError('Missed required field',
    name), or the TypeError of a body that is no object.  A KeyError
    never leaves it. *)
Theorem check_json_outcomes (answer : string) (values : pyval) :
  json_loads answer = Ok values ->
  (exists X, __check_json answer = Ok X) \/
  (exists c, __check_json answer = Raise (ValueError [c])) \/
  (exists name,
     __check_json answer
       = Raise (ValueError [PyStr "Missed required field"; PyStr name])) \/
  (exists msg, __check_json answer = Raise (TypeError msg)).
Proof.
  intros Hload. rewrite (check_json_parsed _ _ Hload).
  destruct values;
    try (right; right; right; eexists; reflexivity).
  cbn [py_getitem].
  destruct (dict_get fields "status") as [status|];
    [|right; right; left; eexists; reflexivity].
  cbn [obind]. destruct (py_eq_str status "OK").
  - destruct (dict_get fields "result");
      [left; eexists; reflexivity | right; right; left; eexists; reflexivity].
  - destruct (dict_get fields "comment");
      [right; left; eexists; reflexivity | right; right; left; eexists; reflexivity].
Qed.

(** ** Requests *)

Lemma get_data_value (method : string) (kwargs : list (string * pyval))
    (st : state) (url : string) :
  __generate_url method kwargs st = (Ok url, st) ->
  get_data method kwargs st
    = (obind (urlopen_readall (requests st) url) (fun body =>
         obind (decode_utf8 body) __check_json),
       mkState (retriever st) (List.app (requests st) [url])).
Proof.
  intros Hurl. unfold get_data. rewrite (bind_Ok _ _ _ _ _ Hurl).
  unfold __get_data, bind, urlopen, lift.
  destruct (urlopen_readall (requests st) url) as [body|e]; [|reflexivity].
  cbn [obind]. destruct (decode_utf8 body); reflexivity.
Qed.

Lemma generate_url_state (method : string) (kwargs : list (string * pyval))
    (st : state) :
  __generate_url method kwargs st = (fst (__generate_url method kwargs st), st).
Proof.
  pose proof (silent_generate_url method kwargs st) as Hs.
  destruct (__generate_url method kwargs st) as [o st1]. cbn [snd fst] in *.
  subst st1. reflexivity.
Qed.

(** [get_data] opens the URL that URL generation gave, once, whatever
    the server answers; when URL generation raises, that error is raised
    and nothing is opened. *)
Theorem get_data_requests (method : string) (kwargs : list (string * pyval))
    (st : state) :
  match fst (__generate_url method kwargs st) with
  | Ok url =>
      snd (get_data method kwargs st)
        = mkState (retriever st) (List.app (requests st) [url])
  | Raise e => get_data method kwargs st = (Raise e, st)
  end.
Proof.
  pose proof (generate_url_state method kwargs st) as Hst.
  destruct (fst (__generate_url method kwargs st)) as [url|e].
  - rewrite (get_data_value _ _ _ _ Hst). reflexivity.
  - unfold get_data. apply bind_Raise. exact Hst.
Qed.

(** What [urlopen], the decoder or [json.loads] raise reaches the caller
    of [get_data] as it is, a KeyError among them: the handler of the
    check does not cover the parser. *)
Theorem get_data_propagates_library_errors (method : string)
    (kwargs : list (string * pyval)) (st : state) (url : string) (e : exn) :
  __generate_url method kwargs st = (Ok url, st) ->
  urlopen_readall (requests st) url = Raise e \/
  (exists body,
     urlopen_readall (requests st) url = Ok body /\
     (decode_utf8 body = Raise e \/
      exists answer, decode_utf8 body = Ok answer /\ json_loads answer = Raise e)) ->
  get_data method kwargs st
    = (Raise e, mkState (retriever st) (List.app (requests st) [url])).
Proof.
  intros Hurl Hfail. rewrite (get_data_value _ _ _ _ Hurl). f_equal.
  destruct Hfail as [Hopen | (body & Hopen & [Hdec | (answer & Hdec & Hload)])];
    rewrite Hopen; cbn [obind]; try reflexivity; rewrite Hdec; cbn [obind];
    try reflexivity.
  unfold __check_json. rewrite Hload. reflexivity.
Qed.

Lemma one_of_silent {A} (m : M A) : silent m -> at_most_one_request m.
Proof. intros Hm st. left. apply Hm. Qed.

Lemma one_bind_silent_first {A B} (m : M A) (f : A -> M B) :
  silent m -> (forall a, at_most_one_request (f a)) -> at_most_one_request (bind m f).
Proof.
  intros Hm Hf st. unfold bind. specialize (Hm st).
  destruct (m st) as [[a|e] st1]; cbn [snd] in *; subst st1.
  - apply Hf.
  - left. reflexivity.
Qed.

Lemma one_bind_silent_rest {A B} (m : M A) (f : A -> M B) :
  at_most_one_request m -> (forall a, silent (f a)) -> at_most_one_request (bind m f).
Proof.
  intros Hm Hf st. unfold bind. specialize (Hm st).
  destruct (m st) as [[a|e] st1]; cbn [snd] in *.
  - pose proof (Hf a st1) as Hs. rewrite Hs. exact Hm.
  - exact Hm.
Qed.

Lemma one_get_data (method : string) (kwargs : list (string * pyval)) :
  at_most_one_request (get_data method kwargs).
Proof.
  intros st. unfold get_data, bind.
  pose proof (silent_generate_url method kwargs st) as Hs.
  destruct (__generate_url method kwargs st) as [[url|e] st1]; cbn [snd] in *;
    subst st1.
  - right. exists url. apply get_data_of_url_requests.
  - left. reflexivity.
Qed.

Ltac one_request :=
  repeat (apply one_bind_silent_first; [solve [frame] | intros ?]);
  first [ apply one_get_data
        | apply one_bind_silent_rest; [apply one_get_data | intros ?; solve [frame]] ].

(** No operation opens more than one URL, and none drops or rewrites
    what was opened before: there is no retry and no second request. *)
Theorem at_most_one_request_per_operation (op : operation) (st : state) :
  requests (after op st) = requests st \/
  exists url, requests (after op st) = List.app (requests st) [url].
Proof.
  assert (Hop : after op st = st \/
                exists url, after op st
                            = mkState (retriever st) (List.app (requests st) [url])).
  { destruct op; cbn [after];
      match goal with
      | |- snd (?m st) = st \/ _ =>
          let Hm := fresh "Hm" in
          assert (Hm : at_most_one_request m); [|exact (Hm st)]
      end.
    - apply one_get_data.
    - apply one_of_silent. frame.
    - apply one_of_silent. frame.
    - unfold contest_hacks. one_request.
    - unfold contest_list. one_request.
    - unfold contest_standings. one_request.
    - unfold contest_status. one_request.
    - unfold problemset_problems. one_request.
    - unfold problemset_recent_status. one_request.
    - unfold user_info. one_request.
    - unfold user_rated_list. one_request.
    - unfold user_rating. one_request.
    - unfold user_status. one_request. }
  destruct Hop as [-> | [url ->]]; [left; reflexivity | right; exists url; reflexivity].
Qed.

(** ** URLs *)

Lemma valid_args_all_None (kwargs : list (string * pyval)) :
  Forall (fun kv => snd kv = PyNone) kwargs -> __get_valid_args kwargs = [].
Proof.
  induction 1 as [|[k v] rest Hv _ IH]; [reflexivity|].
  cbn [snd] in Hv. subst v. cbn. exact IH.
Qed.

Lemma valid_args_idempotent (kwargs : list (string * pyval)) :
  __get_valid_args (__get_valid_args kwargs) = __get_valid_args kwargs.
Proof.
  unfold __get_valid_args. induction kwargs as [|[k v] rest IH]; [reflexivity|].
  cbn [filter snd]. destruct (negb (is_None v)) eqn:Hv; [|exact IH].
  cbn [filter snd]. rewrite Hv, IH. reflexivity.
Qed.

(** Without keyword arguments the URL is the base and the method; with
    keyword arguments that are all None it is the base, the method and a
    bare "?". *)
Theorem generate_url_without_parameters (method : string) (st : state) (b : string) :
  base_lookup (_base_from_language (retriever st)) (_language (retriever st)) = Some b ->
  __generate_url method [] st = (Ok (b ++ method), st) /\
  forall kwargs,
    kwargs <> [] ->
    Forall (fun kv => snd kv = PyNone) kwargs ->
    __generate_url method kwargs st = (Ok ((b ++ method) ++ "?"), st).
Proof.
  intros Hb. split.
  - unfold __generate_url, bind. rewrite (base_value _ _ Hb). reflexivity.
  - intros kwargs Hne Hall. rewrite (generate_url_value _ _ _ _ Hb Hne).
    rewrite (valid_args_all_None _ Hall). reflexivity.
Qed.


Lemma join_from_non_str (sep : string) (x : pyval) (items : list pyval) :
  In x items -> isinstance_str x = false ->
  forall i, exists msg, join_from i sep items = Raise (TypeError msg).
Proof.
  intros Hin Hx. induction items as [|y rest IH]; intros i; [contradiction|].
  destruct y; try (eexists; reflexivity).
  destruct Hin as [<- | Hin]; [cbn in Hx; discriminate Hx|].
  destruct rest as [|z rest]; [contradiction|].
  destruct (IH Hin (S i)) as [msg Hmsg].
  exists msg.
  change (join_from i sep (PyStr s :: z :: rest))
    with (obind (join_from (S i) sep (z :: rest)) (fun t => Ok (s ++ sep ++ t))).
  rewrite Hmsg. reflexivity.
Qed.

Lemma join_from_raises (sep : string) (items : list pyval) :
  forall i e, join_from i sep items = Raise e -> exists msg, e = TypeError msg.
Proof.
  induction items as [|y rest IH]; intros i e E; [discriminate E|].
  destruct y; try (cbn in E; injection E as <-; eexists; reflexivity).
  destruct rest as [|z rest]; [discriminate E|].
  change (join_from i sep (PyStr s :: z :: rest))
    with (obind (join_from (S i) sep (z :: rest)) (fun t => Ok (s ++ sep ++ t))) in E.
  destruct (join_from (S i) sep (z :: rest)) as [t|e'] eqn:Hj; [discriminate E|].
  cbn [obind] in E. injection E as <-. exact (IH _ _ Hj).
Qed.

Lemma parameter_raises (kv : string * pyval) (e : exn) :
  __key_value_to_http_parameter kv = Raise e -> exists msg, e = TypeError msg.
Proof.
  destruct kv as [k v]. unfold __key_value_to_http_parameter.
  destruct v; try discriminate.
  unfold str_join. destruct (join_from 0 ";" items) as [t|e'] eqn:Hj; [discriminate|].
  cbn [obind]. intros E. injection E as <-. exact (join_from_raises _ _ _ _ Hj).
Qed.

Lemma omap_raises {A B} (f : A -> outcome B) (l : list A) (x : A) :
  In x l -> (exists e, f x = Raise e) ->
  exists y e, In y l /\ f y = Raise e /\ omap f l = Raise e.
Proof.
  intros Hin Hx. induction l as [|z l IH]; [contradiction|].
  cbn [omap]. destruct (f z) as [b|e] eqn:Hz.
  - destruct Hin as [-> | Hin].
    + destruct Hx as [e Hx]. congruence.
    + destruct (IH Hin) as (y & e & Hy & Hfy & Hl).
      exists y, e. split; [right; exact Hy|]. split; [exact Hfy|].
      cbn [obind]. rewrite Hl. reflexivity.
  - exists z, e. split; [left; reflexivity|]. split; [exact Hz | reflexivity].
Qed.

(** A list-valued argument with an item that is not a [str] makes
    [get_data] raise the TypeError of [';'.join], before anything is
    opened. *)
Theorem get_data_rejects_non_str_items (method : string)
    (kwargs : list (string * pyval)) (key : string) (items : list pyval)
    (x : pyval) (st : state) (b : string) :
  base_lookup (_base_from_language (retriever st)) (_language (retriever st)) = Some b ->
  In (key, PyList items) kwargs ->
  In x items ->
  isinstance_str x = false ->
  exists msg, get_data method kwargs st = (Raise (TypeError msg), st).
Proof.
  intros Hb Hkey Hx Hstr.
  assert (Hvalid : In (key, PyList items) (__get_valid_args kwargs)).
  { apply valid_args_In. split; [exact Hkey | discriminate]. }
  assert (Hfail : exists e, __key_value_to_http_parameter (key, PyList items) = Raise e).
  { destruct (join_from_non_str ";" x items Hx Hstr 0) as [msg Hmsg].
    exists (TypeError msg). unfold __key_value_to_http_parameter, str_join.
    rewrite Hmsg. reflexivity. }
  destruct (omap_raises _ _ _ Hvalid Hfail) as (kv & e & _ & Hkv & Hall).
  destruct (parameter_raises _ _ Hkv) as [msg ->].
  exists msg. unfold get_data. apply bind_Raise.
  rewrite (generate_url_value method kwargs st b Hb).
  - rewrite Hall. reflexivity.
  - intros ->. contradiction.
Qed.

(** ** The base of a client *)

Lemma set_language_keeps_table (value : pyval) (st : state) :
  _base_from_language (retriever (snd (set_language value st)))
    = _base_from_language (retriever st).
Proof.
  unfold set_language, bind, assert_, lift.
  destruct (isinstance_CodeforcesLanguage value || isinstance_str value);
    [|reflexivity].
  cbn [ret]. destruct (CodeforcesLanguage_of value); reflexivity.
Qed.

Lemma reachable_table (st : state) :
  reachable st ->
  _base_from_language (retriever st) = [(en, base_of en); (ru, base_of ru)].
Proof.
  induction 1 as [lang r Hr | lang r Hr | op st _ IH | value st _ IH].
  - destruct lang; try discriminate Hr. injection Hr as <-. reflexivity.
  - unfold CodeforcesAPI__init__ in Hr.
    destruct (CodeforcesLanguage_of lang); [|discriminate Hr].
    injection Hr as <-. reflexivity.
  - rewrite keeps_after. exact IH.
  - rewrite set_language_keeps_table. exact IH.
Qed.

(** In every state a client can reach, [base] returns, never raising the
    KeyError of a language missing from the table, and it is
    http://codeforces.com/api/ for en and http://codeforces.ru/api/ for
    ru. *)
Theorem reachable_base (st : state) :
  reachable st ->
  base st = (Ok (base_of (_language (retriever st))), st).
Proof.
  intros Hreach. apply base_value. rewrite (reachable_table st Hreach).
  destruct (_language (retriever st)); reflexivity.
Qed.

(** ** The facade, call by call *)

Lemma get_data_then_silent {A} (method : string) (kwargs : list (string * pyval))
    (f : pyval -> M A) (st : state) (url : string) :
  __generate_url method kwargs st = (Ok url, st) ->
  (forall data, silent (f data)) ->
  snd (bind (get_data method kwargs) f st)
    = mkState (retriever st) (List.app (requests st) [url]).
Proof.
  intros Hurl Hf. unfold bind. rewrite (get_data_value _ _ _ _ Hurl).
  destruct (obind (urlopen_readall (requests st) url)
              (fun body => obind (decode_utf8 body) __check_json)) as [data|e].
  - apply Hf.
  - reflexivity.
Qed.

Lemma get_data_answer (method : string) (kwargs : list (string * pyval))
    (st : state) (url : string) (body : list Byte.byte) (answer : string) :
  __generate_url method kwargs st = (Ok url, st) ->
  urlopen_readall (requests st) url = Ok body ->
  decode_utf8 body = Ok answer ->
  get_data method kwargs st
    = (__check_json answer, mkState (retriever st) (List.app (requests st) [url])).
Proof.
  intros Hurl Hopen Hdec. rewrite (get_data_value _ _ _ _ Hurl).
  rewrite Hopen. cbn [obind]. rewrite Hdec. reflexivity.
Qed.

Lemma generate_url_one_value (method key : string) (value : pyval)
    (st : state) (b : string) :
  base_lookup (_base_from_language (retriever st)) (_language (retriever st)) = Some b ->
  isinstance_list value = false ->
  is_None value = false ->
  __generate_url method [(key, value)] st
    = (Ok ((b ++ method) ++ "?" ++ key ++ "=" ++ py_str value), st).
Proof.
  intros Hb Hlist Hnone. rewrite (generate_url_value method _ st b Hb) by discriminate.
  cbn [__get_valid_args filter snd]. rewrite Hnone. cbn [negb omap].
  destruct value; try discriminate Hlist; reflexivity.
Qed.

(** [problemset_recent_status] sends its request for a count from 1 to
    1000, with the count in the URL, and raises an AssertionError
    without sending anything for a count below 1 or above 1000. *)
Theorem problemset_recent_status_bounds (n : Z) (st : state) (b : string) :
  base_lookup (_base_from_language (retriever st)) (_language (retriever st)) = Some b ->
  (0 < n <= 1000 ->
   snd (problemset_recent_status (PyInt n) st)
     = mkState (retriever st)
         (List.app (requests st)
            [(b ++ "problemset.recentStatus") ++ "?" ++ "count=" ++ str_of_Z n])) /\
  (n <= 0 \/ 1000 < n ->
   problemset_recent_status (PyInt n) st = (Raise (AssertionError None), st)).
Proof.
  intros Hb. unfold problemset_recent_status. cbn [isinstance_int assert_].
  rewrite (bind_Ok _ _ st st tt) by reflexivity.
  rewrite (bind_Ok _ _ st st n) by reflexivity.
  split.
  - intros [Hlo Hhi].
    assert (Hin : (0 <? n) && (n <=? 1000) = true).
    { apply andb_true_intro. split; [apply Z.ltb_lt | apply Z.leb_le]; assumption. }
    rewrite Hin. rewrite (bind_Ok _ _ st st tt) by reflexivity.
    apply get_data_then_silent.
    + exact (generate_url_one_value "problemset.recentStatus" "count" (PyInt n)
               st b Hb eq_refl eq_refl).
    + intros data. apply silent_list_map.
  - intros Hout.
    assert (Hin : (0 <? n) && (n <=? 1000) = false).
    { apply andb_false_iff. destruct Hout as [Hlo | Hhi];
        [left; apply Z.ltb_ge | right; apply Z.leb_gt]; assumption. }
    rewrite Hin. reflexivity.
Qed.

(** [user_status] asks for
    user.status?handle=..&count=..&from=.. : the argument [from_] goes
    under the name "from", after [count], and [count] is left out when
    it is None. *)
Theorem user_status_request (handle : string) (from_ : Z) (count : option Z)
    (st : state) (b : string) :
  base_lookup (_base_from_language (retriever st)) (_language (retriever st)) = Some b ->
  snd (user_status (PyStr handle) (PyInt from_) (optional_int count) st)
    = mkState (retriever st)
        (List.app (requests st)
           [(b ++ "user.status") ++ "?"
              ++ String.concat "&"
                   (("handle=" ++ handle)
                      :: match count with
                         | Some c => ["count=" ++ str_of_Z c; "from=" ++ str_of_Z from_]
                         | None => ["from=" ++ str_of_Z from_]
                         end)]).
Proof.
  intros Hb. unfold user_status. cbn [isinstance_str isinstance_int assert_].
  rewrite (bind_Ok _ _ st st tt) by reflexivity.
  rewrite (bind_Ok _ _ st st tt) by reflexivity.
  assert (Hcount : isinstance_int (optional_int count) || is_None (optional_int count)
                   = true) by (destruct count; reflexivity).
  rewrite Hcount. rewrite (bind_Ok _ _ st st tt) by reflexivity.
  apply get_data_then_silent; [|intros data; apply silent_list_map].
  rewrite (generate_url_value _ _ st b Hb) by discriminate.
  destruct count; reflexivity.
Qed.

(** [contest_status] asks for
    contest.status?contestId=..&handle=..&count=..&from=.. , leaving out
    [handle] and [count] when they are None. *)
Theorem contest_status_request (contest_id : Z) (handle : option string)
    (from_ : Z) (count : option Z) (st : state) (b : string) :
  base_lookup (_base_from_language (retriever st)) (_language (retriever st)) = Some b ->
  snd (contest_status (PyInt contest_id) (optional_str handle) (PyInt from_)
         (optional_int count) st)
    = mkState (retriever st)
        (List.app (requests st)
           [(b ++ "contest.status") ++ "?"
              ++ String.concat "&"
                   (("contestId=" ++ str_of_Z contest_id)
                      :: List.app
                           match handle with
                           | Some h => ["handle=" ++ h]
                           | None => []
                           end
                           (List.app
                              match count with
                              | Some c => ["count=" ++ str_of_Z c]
                              | None => []
                              end
                              ["from=" ++ str_of_Z from_]))]).
Proof.
  intros Hb. unfold contest_status. cbn [isinstance_int assert_].
  rewrite (bind_Ok _ _ st st tt) by reflexivity.
  assert (Hhandle : isinstance_str (optional_str handle) || is_None (optional_str handle)
                    = true) by (destruct handle; reflexivity).
  rewrite Hhandle. rewrite (bind_Ok _ _ st st tt) by reflexivity.
  rewrite (bind_Ok _ _ st st tt) by reflexivity.
  assert (Hcount : isinstance_int (optional_int count) || is_None (optional_int count)
                   = true) by (destruct count; reflexivity).
  rewrite Hcount. rewrite (bind_Ok _ _ st st tt) by reflexivity.
  apply get_data_then_silent; [|intros data; apply silent_list_map].
  rewrite (generate_url_value _ _ st b Hb) by discriminate.
  destruct handle, count; reflexivity.
Qed.

(** [user_rated_list] sends a boolean as Python prints it,
    activeOnly=True or activeOnly=False, and raises an AssertionError
    without sending anything for a value that is no [bool], an [int]
    included. *)
Theorem user_rated_list_request (active_only : pyval) (st : state) (b : string) :
  base_lookup (_base_from_language (retriever st)) (_language (retriever st)) = Some b ->
  (forall a : bool,
     active_only = PyBool a ->
     snd (user_rated_list active_only st)
       = mkState (retriever st)
           (List.app (requests st)
              [(b ++ "user.ratedList") ++ "?" ++ "activeOnly="
                 ++ (if a then "True" else "False")])) /\
  (isinstance_bool active_only = false ->
   user_rated_list active_only st = (Raise (AssertionError None), st)).
Proof.
  intros Hb. unfold user_rated_list. split.
  - intros a ->. cbn [isinstance_bool assert_].
    rewrite (bind_Ok _ _ st st tt) by reflexivity.
    apply get_data_then_silent; [|intros data; apply silent_list_map].
    rewrite (generate_url_one_value "user.ratedList" "activeOnly" (PyBool a)
               st b Hb eq_refl eq_refl).
    destruct a; reflexivity.
  - intros Hty. rewrite Hty. reflexivity.
Qed.

Lemma check_json_ok_value (answer : string) (fields : list (string * pyval))
    (X : pyval) :
  json_loads answer = Ok (PyDict fields) ->
  dict_get fields "status" = Some (PyStr "OK") ->
  dict_get fields "result" = Some X ->
  __check_json answer = Ok X.
Proof.
  intros Hload Hs Hr. rewrite (check_json_parsed _ _ Hload). cbn [py_getitem].
  rewrite Hs. cbn [obind py_eq_str]. rewrite String.eqb_refl, Hr. reflexivity.
Qed.

Lemma check_json_failed_value (answer : string) (fields : list (string * pyval))
    (status c : pyval) :
  json_loads answer = Ok (PyDict fields) ->
  dict_get fields "status" = Some status ->
  status <> PyStr "OK" ->
  dict_get fields "comment" = Some c ->
  __check_json answer = Raise (ValueError [c]).
Proof.
  intros Hload Hs Hne Hc. rewrite (check_json_parsed _ _ Hload). cbn [py_getitem].
  rewrite Hs. cbn [obind]. rewrite (py_eq_str_false _ _ Hne), Hc. reflexivity.
Qed.

(** When the server answers contest.hacks?contestId=.. with an "OK"
    envelope whose result is a list, and the constructor accepts every
    item, [contest_hacks] returns the records of the items, in their
    order, after that one request. *)
Theorem contest_hacks_success (contest_id : Z) (st : state) (b : string)
    (body : list Byte.byte) (answer : string) (fields : list (string * pyval))
    (items : list pyval) (records : list instance) :
  base_lookup (_base_from_language (retriever st)) (_language (retriever st)) = Some b ->
  urlopen_readall (requests st)
    ((b ++ "contest.hacks") ++ "?" ++ "contestId=" ++ str_of_Z contest_id) = Ok body ->
  decode_utf8 body = Ok answer ->
  json_loads answer = Ok (PyDict fields) ->
  dict_get fields "status" = Some (PyStr "OK") ->
  dict_get fields "result" = Some (PyList items) ->
  omap (construct Hack) items = Ok records ->
  contest_hacks (PyInt contest_id) st
    = (Ok records,
       mkState (retriever st)
         (List.app (requests st)
            [(b ++ "contest.hacks") ++ "?" ++ "contestId=" ++ str_of_Z contest_id])).
Proof.
  intros Hb Hopen Hdec Hload Hs Hr Hrec. unfold contest_hacks.
  cbn [isinstance_int assert_]. rewrite (bind_Ok _ _ st st tt) by reflexivity.
  pose proof (generate_url_one_value "contest.hacks" "contestId" (PyInt contest_id)
                st b Hb eq_refl eq_refl) as Hurl.
  rewrite (bind_Ok _ _ _ _ _
             (eq_trans (get_data_answer _ _ _ _ _ _ Hurl Hopen Hdec)
                (f_equal (fun o => (o, _)) (check_json_ok_value _ _ _ Hload Hs Hr)))).
  unfold list_map, bind, lift. cbn [py_iter]. rewrite Hrec. reflexivity.
Qed.

(** When the server answers user.rating?handle=.. with an envelope
    whose status is not "OK", [user_rating] raises ValueError with the
    comment of the server, after that one request. *)
Theorem user_rating_remote_failure (handle : string) (st : state) (b : string)
    (body : list Byte.byte) (answer : string) (fields : list (string * pyval))
    (status c : pyval) :
  base_lookup (_base_from_language (retriever st)) (_language (retriever st)) = Some b ->
  urlopen_readall (requests st) ((b ++ "user.rating") ++ "?" ++ "handle=" ++ handle)
    = Ok body ->
  decode_utf8 body = Ok answer ->
  json_loads answer = Ok (PyDict fields) ->
  dict_get fields "status" = Some status ->
  status <> PyStr "OK" ->
  dict_get fields "comment" = Some c ->
  user_rating (PyStr handle) st
    = (Raise (ValueError [c]),
       mkState (retriever st)
         (List.app (requests st) [(b ++ "user.rating") ++ "?" ++ "handle=" ++ handle])).
Proof.
  intros Hb Hopen Hdec Hload Hs Hne Hc. unfold user_rating.
  cbn [isinstance_str assert_]. rewrite (bind_Ok _ _ st st tt) by reflexivity.
  pose proof (generate_url_one_value "user.rating" "handle" (PyStr handle)
                st b Hb eq_refl eq_refl) as Hurl.
  apply bind_Raise.
  rewrite (get_data_answer _ _ _ _ _ _ Hurl Hopen Hdec).
  rewrite (check_json_failed_value _ _ _ _ Hload Hs Hne Hc). reflexivity.
Qed.

(** ** The language a client accepts *)

Lemma language_of_accepts (value : pyval) (l : CodeforcesLanguage) :
  CodeforcesLanguage_of value = Ok l <->
  value = PyEnum l \/ value = PyStr (language_name l).
Proof.
  split.
  - destruct value; cbn [CodeforcesLanguage_of]; try discriminate.
    + destruct (String.eqb s "en") eqn:Hen.
      * apply String.eqb_eq in Hen. subst s. intros E. injection E as <-.
        right. reflexivity.
      * destruct (String.eqb s "ru") eqn:Hru; [|discriminate].
        apply String.eqb_eq in Hru. subst s. intros E. injection E as <-.
        right. reflexivity.
    + intros E. injection E as <-. left. reflexivity.
  - intros [-> | ->]; [reflexivity | destruct l; reflexivity].
Qed.

(** An assignment to [language] goes through exactly for a member of
    the enumeration and for the strings "en" and "ru"; every other
    value makes it raise. *)
Theorem set_language_accepts_iff (value : pyval) (st : state) :
  fst (set_language value st) = Ok tt <->
  exists l, value = PyEnum l \/ value = PyStr (language_name l).
Proof.
  split.
  - unfold set_language, bind, assert_, lift.
    destruct (isinstance_CodeforcesLanguage value || isinstance_str value);
      [|discriminate].
    cbn [ret]. destruct (CodeforcesLanguage_of value) as [l|e] eqn:Hl; [|discriminate].
    intros _. exists l. apply language_of_accepts. exact Hl.
  - intros [l Hl]. apply language_of_accepts in Hl as Hof.
    unfold set_language, bind, assert_, lift.
    assert (Hty : isinstance_CodeforcesLanguage value || isinstance_str value = true)
      by (destruct Hl as [-> | ->]; reflexivity).
    rewrite Hty. cbn [ret]. rewrite Hof. reflexivity.
Qed.

(** [CodeforcesAPI(lang)] builds a client exactly for a member of the
    enumeration and for the strings "en" and "ru", and the client has
    that language and the table of the two bases. *)
Theorem api_init_accepts_iff (lang : pyval) (r : CodeforcesDataRetriever) :
  CodeforcesAPI__init__ lang = Ok r <->
  exists l,
    (lang = PyEnum l \/ lang = PyStr (language_name l)) /\
    r = mkRetriever [(en, base_of en); (ru, base_of ru)] l.
Proof.
  unfold CodeforcesAPI__init__. split.
  - destruct (CodeforcesLanguage_of lang) as [l|e] eqn:Hl; [|discriminate].
    cbn [obind CodeforcesDataRetriever__init__]. intros E. injection E as <-.
    exists l. split; [apply language_of_accepts; exact Hl | reflexivity].
  - intros (l & Hl & ->). apply language_of_accepts in Hl. rewrite Hl. reflexivity.
Qed.

(** ** The facade, the remaining calls *)

(** With at most 10000 handles, all strings, [contest_standings] passes
    its assertions and asks for
    contest.standings?contestId=..&count=..&handles=h1;h2;..&from=.. ,
    leaving out [count] when it is None. *)
Theorem contest_standings_request (contest_id from_ : Z) (count : option Z)
    (hs : list string) (st : state) (b : string) :
  base_lookup (_base_from_language (retriever st)) (_language (retriever st)) = Some b ->
  Z.of_nat (List.length hs) <= 10000 ->
  snd (contest_standings (PyInt contest_id) (PyInt from_) (optional_int count)
         (PyList (map PyStr hs)) st)
    = mkState (retriever st)
        (List.app (requests st)
           [(b ++ "contest.standings") ++ "?"
              ++ String.concat "&"
                   (("contestId=" ++ str_of_Z contest_id)
                      :: List.app
                           match count with
                           | Some c => ["count=" ++ str_of_Z c]
                           | None => []
                           end
                           ["handles=" ++ String.concat ";" hs;
                            "from=" ++ str_of_Z from_])]).
Proof.
  intros Hb Hlen. unfold contest_standings. cbn [isinstance_int assert_].
  rewrite (bind_Ok _ _ st st tt) by reflexivity.
  rewrite (bind_Ok _ _ st st tt) by reflexivity.
  assert (Hcount : isinstance_int (optional_int count) || is_None (optional_int count)
                   = true) by (destruct count; reflexivity).
  rewrite Hcount. rewrite (bind_Ok _ _ st st tt) by reflexivity.
  cbn [isinstance_list orb]. rewrite (bind_Ok _ _ st st tt) by reflexivity.
  rewrite (bind_Ok _ _ st st (Z.of_nat (List.length hs)))
    by (unfold lift; cbn [py_len]; rewrite length_map; reflexivity).
  apply Z.leb_le in Hlen. rewrite Hlen.
  rewrite (bind_Ok _ _ st st tt) by reflexivity.
  apply get_data_then_silent; [|intros data; frame].
  rewrite (generate_url_value _ _ st b Hb) by discriminate.
  destruct count; cbn [optional_int __get_valid_args filter snd is_None negb omap];
    rewrite render_list_of_strs; reflexivity.
Qed.

(** [contest_list] checks nothing: whatever is passed for [gym], a list
    and None apart, is sent as gym=str(value). *)
Theorem contest_list_request (gym : pyval) (st : state) (b : string) :
  base_lookup (_base_from_language (retriever st)) (_language (retriever st)) = Some b ->
  isinstance_list gym = false ->
  is_None gym = false ->
  snd (contest_list gym st)
    = mkState (retriever st)
        (List.app (requests st) [(b ++ "contest.list") ++ "?" ++ "gym=" ++ py_str gym]).
Proof.
  intros Hb Hlist Hnone. unfold contest_list.
  apply get_data_then_silent; [|intros data; apply silent_list_map].
  exact (generate_url_one_value "contest.list" "gym" gym st b Hb Hlist Hnone).
Qed.

(** [problemset_problems] asks for problemset.problems?tags=t1;t2;..
    for a list of tags, and for problemset.problems? with nothing
    after the question mark when [tags] is None. *)
Theorem problemset_problems_request (tags : option (list string)) (st : state)
    (b : string) :
  base_lookup (_base_from_language (retriever st)) (_language (retriever st)) = Some b ->
  snd (problemset_problems
         match tags with
         | Some ts => PyList (map PyStr ts)
         | None => PyNone
         end st)
    = mkState (retriever st)
        (List.app (requests st)
           [(b ++ "problemset.problems") ++ "?"
              ++ match tags with
                 | Some ts => "tags=" ++ String.concat ";" ts
                 | None => ""
                 end]).
Proof.
  intros Hb. unfold problemset_problems.
  apply get_data_then_silent; [|intros data; frame].
  destruct tags as [ts|].
  - exact (generate_url_one_list "problemset.problems" "tags" ts st b Hb).
  - rewrite (generate_url_value _ _ st b Hb) by discriminate. reflexivity.
Qed.

(** A result of problemset.problems that is an object without
    "problems", or with a list of problems the constructor accepts but
    without "problemStatistics", makes [problemset_problems] raise the
    bare KeyError of the missing key: the 'Missed required field' error
    covers the envelope only. *)
Theorem problemset_problems_missing_field (tags : pyval) (st st' : state)
    (fields : list (string * pyval)) :
  get_data "problemset.problems" [("tags", tags)] st = (Ok (PyDict fields), st') ->
  (dict_get fields "problems" = None ->
   problemset_problems tags st = (Raise (KeyError (PyStr "problems")), st')) /\
  (forall items problems,
     dict_get fields "problems" = Some (PyList items) ->
     omap (construct Problem) items = Ok problems ->
     dict_get fields "problemStatistics" = None ->
     problemset_problems tags st = (Raise (KeyError (PyStr "problemStatistics")), st')).
Proof.
  intros Hdata. unfold problemset_problems.
  rewrite (bind_Ok _ _ _ _ _ Hdata). split.
  - intros Hp. apply bind_Raise. unfold lift. cbn [py_getitem]. rewrite Hp. reflexivity.
  - intros items problems Hp Hc Hs.
    rewrite (bind_Ok _ _ st' st' (PyList items))
      by (unfold lift; cbn [py_getitem]; rewrite Hp; reflexivity).
    rewrite (bind_Ok _ _ st' st' problems)
      by (unfold list_map, bind, lift; cbn [py_iter]; rewrite Hc; reflexivity).
    apply bind_Raise. unfold lift. cbn [py_getitem]. rewrite Hs. reflexivity.
Qed.

(** ** The query string, read back *)

Lemma contains_app (c : ascii) (s t : string) :
  contains c (s ++ t) = contains c s || contains c t.
Proof.
  induction s as [|a s IH]; [reflexivity|].
  cbn [append contains]. rewrite IH. apply orb_assoc.
Qed.

Lemma before_app (c : ascii) (s t : string) :
  contains c s = false -> before c (s ++ String c t) = s.
Proof.
  induction s as [|a s IH]; cbn [append contains before]; intros Hs.
  - rewrite Ascii.eqb_refl. reflexivity.
  - apply orb_false_elim in Hs. destruct Hs as [Ha Hs].
    rewrite Ha, (IH Hs). reflexivity.
Qed.

Lemma after_first_app (c : ascii) (s t : string) :
  contains c s = false -> after_first c (s ++ String c t) = t.
Proof.
  induction s as [|a s IH]; cbn [append contains after_first]; intros Hs.
  - rewrite Ascii.eqb_refl. reflexivity.
  - apply orb_false_elim in Hs. destruct Hs as [Ha Hs].
    rewrite Ha. exact (IH Hs).
Qed.

Lemma split_on_absent (c : ascii) (s : string) :
  contains c s = false -> split_on c s = [s].
Proof.
  induction s as [|a s IH]; cbn [contains split_on]; intros Hs; [reflexivity|].
  apply orb_false_elim in Hs. destruct Hs as [Ha Hs].
  rewrite Ha, (IH Hs). reflexivity.
Qed.

Lemma split_on_app (c : ascii) (s t : string) :
  contains c s = false -> split_on c (s ++ String c t) = s :: split_on c t.
Proof.
  induction s as [|a s IH]; cbn [append contains split_on]; intros Hs.
  - rewrite Ascii.eqb_refl. reflexivity.
  - apply orb_false_elim in Hs. destruct Hs as [Ha Hs].
    rewrite Ha, (IH Hs). reflexivity.
Qed.

Lemma split_on_concat (c : ascii) (ps : list string) :
  ps <> [] ->
  Forall (fun p => contains c p = false) ps ->
  split_on c (String.concat (String c EmptyString) ps) = ps.
Proof.
  intros Hne Hall. induction Hall as [|p ps Hp Hall IH]; [contradiction|].
  destruct ps as [|q ps].
  - cbn [String.concat]. apply split_on_absent. exact Hp.
  - change (String.concat (String c EmptyString) (p :: q :: ps))
      with (p ++ String c (String.concat (String c EmptyString) (q :: ps))).
    rewrite (split_on_app _ _ _ Hp). rewrite IH by discriminate. reflexivity.
Qed.

Lemma concat_no_separator (c : ascii) (sep : string) (ss : list string) :
  contains c sep = false ->
  Forall (fun s => contains c s = false) ss ->
  contains c (String.concat sep ss) = false.
Proof.
  intros Hsep Hall. induction Hall as [|s ss Hs Hall IH]; [reflexivity|].
  destruct ss as [|t ss]; [exact Hs|].
  change (String.concat sep (s :: t :: ss))
    with (s ++ sep ++ String.concat sep (t :: ss)).
  rewrite !contains_app, Hs, Hsep, IH. reflexivity.
Qed.

Lemma plain_items (items : list pyval) :
  forallb (fun x => match x with
                    | PyStr s => negb (contains "&" s)
                    | _ => false
                    end) items = true ->
  exists ss, items = map PyStr ss /\ Forall (fun s => contains "&" s = false) ss.
Proof.
  induction items as [|x items IH]; cbn [forallb]; intros Hall.
  - exists []. split; [reflexivity | constructor].
  - apply andb_prop in Hall. destruct Hall as [Hx Hall].
    destruct (IH Hall) as (ss & -> & Hss).
    destruct x; try discriminate Hx.
    exists (s :: ss). split; [reflexivity|].
    constructor; [apply negb_true_iff; exact Hx | exact Hss].
Qed.

Lemma render_separator_free (key : string) (value : pyval) :
  separator_free (key, value) = true ->
  exists p,
    __key_value_to_http_parameter (key, value) = Ok p /\
    contains "&" p = false /\ before "=" p = key /\ p <> EmptyString.
Proof.
  unfold separator_free. intros Hfree.
  apply andb_prop in Hfree. destruct Hfree as [Hkey Hvalue].
  apply andb_prop in Hkey. destruct Hkey as [Hamp Heq].
  apply negb_true_iff in Hamp. apply negb_true_iff in Heq.
  assert (Htext : exists text,
             __key_value_to_http_parameter (key, value) = Ok (key ++ String "=" text) /\
             contains "&" text = false).
  { destruct value;
      try (eexists; split; [reflexivity | apply negb_true_iff; exact Hvalue]).
    destruct (plain_items items Hvalue) as (ss & -> & Hss).
    exists (String.concat ";" ss). split.
    - exact (render_list_of_strs key ss).
    - apply concat_no_separator; [reflexivity | exact Hss]. }
  destruct Htext as (text & Hp & Htext).
  exists (key ++ String "=" text). split; [exact Hp|]. split; [|split].
  - rewrite contains_app, Hamp. cbn [contains orb]. exact Htext.
  - apply before_app. exact Heq.
  - destruct key; discriminate.
Qed.

Lemma render_all_separator_free (args : list (string * pyval)) :
  Forall (fun kv => separator_free kv = true) args ->
  exists params,
    omap __key_value_to_http_parameter args = Ok params /\
    Forall (fun p => contains "&" p = false) params /\
    map (before "=") params = map fst args /\
    Forall (fun p => p <> EmptyString) params.
Proof.
  induction 1 as [|[key value] args Hkv _ IH].
  - exists []. repeat split; constructor.
  - destruct IH as (params & Hparams & Hamp & Hkeys & Hne).
    destruct (render_separator_free key value Hkv) as (p & Hp & Hpamp & Hpkey & Hpne).
    exists (p :: params). cbn [omap]. rewrite Hp. cbn [obind]. rewrite Hparams.
    cbn [obind map fst]. rewrite Hpkey, Hkeys.
    repeat split; try constructor; assumption.
Qed.

Lemma query_keys_of_url (prefix : string) (params : list string) :
  contains "?" prefix = false ->
  Forall (fun p => contains "&" p = false) params ->
  Forall (fun p => p <> EmptyString) params ->
  query_keys (prefix ++ "?" ++ String.concat "&" params) = map (before "=") params.
Proof.
  intros Hprefix Hamp Hne. unfold query_keys, query_parameters.
  change ("?" ++ String.concat "&" params) with (String "?" (String.concat "&" params)).
  rewrite (after_first_app _ _ _ Hprefix).
  destruct params as [|p ps]; [reflexivity|].
  pose proof (split_on_concat "&" (p :: ps)) as Hsplit.
  specialize (Hsplit ltac:(discriminate) Hamp).
  destruct (String.concat "&" (p :: ps)) as [|a q] eqn:Hq.
  - cbn [split_on] in Hsplit. injection Hsplit as Hp _.
    inversion Hne as [|? ? Hpne _]; subst. contradiction Hpne. reflexivity.
  - rewrite Hsplit. reflexivity.
Qed.


End ClientFacts.

(** * The client at work *)

Example str_of_Z_374 : str_of_Z 374 = "374".
Proof. reflexivity. Qed.

Example str_of_Z_negative : str_of_Z (-5) = "-5".
Proof. reflexivity. Qed.

Example join_three : str_join ";" [PyStr "a"; PyStr "b"; PyStr "c"] = Ok "a;b;c".
Proof. reflexivity. Qed.

Example join_not_str :
  str_join ";" [PyStr "a"; PyInt 1]
    = Raise (TypeError "sequence item 1: expected str instance, int found").
Proof. reflexivity. Qed.

Example init_en :
  @CodeforcesAPI__init__ (demo_runtime PyNone) (PyStr "en") = Ok (retriever (fresh en)).
Proof. reflexivity. Qed.

Example standings_url :
  @__generate_url (demo_runtime PyNone) "contest.standings"
    (standings_kwargs (PyList [PyStr "tourist"; PyStr "Petr"])) (fresh en)
  = (Ok "http://codeforces.com/api/contest.standings?contestId=374&handles=tourist;Petr&from=1",
     fresh en).
Proof. reflexivity. Qed.

Example problems_url_all_None :
  @__generate_url (demo_runtime PyNone) "problemset.problems" [("tags", PyNone)] (fresh ru)
  = (Ok "http://codeforces.ru/api/problemset.problems?", fresh ru).
Proof. reflexivity. Qed.

Example standings_10001_handles_message :
  @contest_standings (demo_runtime PyNone) (PyInt 374) (PyInt 1) PyNone
    (PyList (repeat (PyStr "tourist") (Z.to_nat 10001))) (fresh en)
  = (Raise (AssertionError (Some "No more than 10000 handles is accepted")), fresh en).
Proof. vm_compute. reflexivity. Qed.

Ltac nodup_keys :=
  repeat (apply NoDup_cons;
          [cbn; intros D;
           repeat (destruct D as [D | D]; [discriminate D|]); exact D|]);
  apply NoDup_nil.

Lemma check_json_ok_witness :
  @__check_json (demo_runtime (ok_envelope standings_result)) "" = Ok standings_result /\
  forall url st body,
    @urlopen_readall (demo_runtime (ok_envelope standings_result)) (requests st) url
      = Ok body ->
    @decode_utf8 (demo_runtime (ok_envelope standings_result)) body = Ok "" ->
    fst (@__get_data (demo_runtime (ok_envelope standings_result)) url st)
      = Ok standings_result.
Proof.
  apply (@check_json_ok_returns_result (demo_runtime (ok_envelope standings_result))
           "" [("status", PyStr "OK"); ("result", standings_result)]);
    reflexivity.
Defined.

Lemma check_json_failed_witness :
  @__check_json (demo_runtime (failed_envelope "contestId: Contest with id 0 not found")) ""
  = Raise (ValueError [PyStr "contestId: Contest with id 0 not found"]).
Proof.
  apply (@check_json_failed_raises_comment
           (demo_runtime (failed_envelope "contestId: Contest with id 0 not found"))
           "" [("status", PyStr "FAILED");
               ("comment", PyStr "contestId: Contest with id 0 not found")]
           (PyStr "FAILED"));
    [reflexivity | reflexivity | intros E; discriminate E | reflexivity].
Defined.

Lemma check_json_missing_witness :
  @__check_json (demo_runtime (PyDict [("result", PyList [])])) ""
    = Raise (ValueError [PyStr "Missed required field"; PyStr "status"]) /\
  @__check_json (demo_runtime (PyDict [("status", PyStr "FAILED")])) ""
    = Raise (ValueError [PyStr "Missed required field"; PyStr "comment"]) /\
  @__check_json (demo_runtime (PyDict [("status", PyStr "OK")])) ""
    = Raise (ValueError [PyStr "Missed required field"; PyStr "result"]).
Proof.
  split; [|split].
  - apply (@check_json_missing_field (demo_runtime (PyDict [("result", PyList [])]))
             "" [("result", PyList [])] "status");
      [reflexivity | apply missing_status; reflexivity].
  - apply (@check_json_missing_field (demo_runtime (PyDict [("status", PyStr "FAILED")]))
             "" [("status", PyStr "FAILED")] "comment");
      [reflexivity |].
    apply (missing_comment _ (PyStr "FAILED"));
      [reflexivity | intros E; discriminate E | reflexivity].
  - apply (@check_json_missing_field (demo_runtime (PyDict [("status", PyStr "OK")]))
             "" [("status", PyStr "OK")] "result");
      [reflexivity | apply missing_result; reflexivity].
Defined.

Lemma generate_url_omits_None_witness :
  @__generate_url (demo_runtime PyNone) "contest.standings"
    (standings_kwargs PyNone) (fresh en)
  = (Ok "http://codeforces.com/api/contest.standings?contestId=374&from=1", fresh en) /\
  ~ In "count" (map fst (__get_valid_args (standings_kwargs PyNone))).
Proof.
  destruct (@generate_url_omits_None (demo_runtime PyNone) "contest.standings"
              (standings_kwargs PyNone) "count" (fresh en)
              "http://codeforces.com/api/") as [Hurl [Hkey _]].
  - reflexivity.
  - unfold standings_kwargs. nodup_keys.
  - cbn. auto.
  - split; [exact Hurl | exact Hkey].
Defined.

Lemma key_value_serializes_witness :
  @__key_value_to_http_parameter (demo_runtime PyNone)
    ("handles", PyList [PyStr "tourist"; PyStr "Petr"]) = Ok "handles=tourist;Petr" /\
  @__key_value_to_http_parameter (demo_runtime PyNone) ("contestId", PyInt 374)
    = Ok "contestId=374" /\
  @__key_value_to_http_parameter (demo_runtime PyNone) ("gym", PyBool false)
    = Ok "gym=False".
Proof.
  split; [|split].
  - exact (proj1 (@key_value_to_http_parameter_serializes (demo_runtime PyNone) "handles")
             ["tourist"; "Petr"]).
  - exact (proj1 (proj2 (@key_value_to_http_parameter_serializes
                           (demo_runtime PyNone) "contestId"))
             (PyInt 374) eq_refl).
  - exact (proj1 (proj2 (@key_value_to_http_parameter_serializes
                           (demo_runtime PyNone) "gym"))
             (PyBool false) eq_refl).
Defined.

Lemma contest_standings_long_handles_witness :
  exists msg,
    @contest_standings (demo_runtime PyNone) (PyInt 374) (PyInt 1) PyNone
      (PyList (repeat (PyStr "tourist") (Z.to_nat 10001))) (fresh en)
    = (Raise (AssertionError msg), fresh en).
Proof.
  apply (@contest_standings_rejects_long_handles (demo_runtime PyNone)).
  - reflexivity.
  - rewrite repeat_length. lia.
Defined.

Lemma contest_standings_default_handles_witness :
  @contest_standings (demo_runtime (ok_envelope standings_result))
    (PyInt 374) (PyInt 1) PyNone PyNone (fresh en)
  = (Raise (TypeError "object of type 'NoneType' has no len()"), fresh en).
Proof.
  apply (@contest_standings_None_handles_raises
           (demo_runtime (ok_envelope standings_result)));
    reflexivity.
Defined.

Lemma user_info_10001_handles_witness :
  10000 < Z.of_nat (List.length (repeat "tourist" (Z.to_nat 10001))) /\
  requests (snd (@user_info (demo_runtime (ok_envelope (PyList [])))
                   (PyList (map PyStr (repeat "tourist" (Z.to_nat 10001)))) (fresh en)))
  = ["http://codeforces.com/api/user.info?handles="
       ++ String.concat ";" (repeat "tourist" (Z.to_nat 10001))].
Proof.
  split.
  - rewrite repeat_length. lia.
  - assert (Hany : forall hs : list string,
               requests (snd (@user_info (demo_runtime (ok_envelope (PyList [])))
                                (PyList (map PyStr hs)) (fresh en)))
               = ["http://codeforces.com/api/user.info?handles="
                    ++ String.concat ";" hs]).
    { intros hs.
      apply (@user_info_sends_any_number_of_handles
               (demo_runtime (ok_envelope (PyList [])))
               hs (fresh en) "http://codeforces.com/api/").
      reflexivity. }
    exact (Hany (repeat "tourist" (Z.to_nat 10001))).
Defined.

(** The setter of [language] changes the language of a retriever, and
    with it the base of the URLs: the setting a retriever is constructed
    with does not stay. *)
Lemma language_setter_changes_language :
  exists r,
    CodeforcesDataRetriever__init__ (PyEnum en) = Ok r /\
    fst (language (mkState r [])) = Ok en /\
    fst (language (snd (@set_language (demo_runtime PyNone) (PyStr "ru") (mkState r []))))
      = Ok ru /\
    fst (base (snd (@set_language (demo_runtime PyNone) (PyStr "ru") (mkState r []))))
      = Ok "http://codeforces.ru/api/".
Proof.
  eexists. split; [reflexivity|]. repeat split.
Qed.

Lemma language_setter_witness :
  @set_language (demo_runtime PyNone) (PyStr "ru") (fresh en) = (Ok tt, fresh ru) /\
  retriever (@after (demo_runtime PyNone) (Op_user_rating (PyStr "tourist")) (fresh en))
    = retriever (fresh en).
Proof.
  destruct (@language_changes_only_through_setter (demo_runtime PyNone) (fresh en))
    as [Hops [Hset _]].
  split.
  - exact (Hset (PyStr "ru") ru eq_refl eq_refl).
  - exact (Hops (Op_user_rating (PyStr "tourist"))).
Defined.

Lemma contest_standings_builds_lists_witness :
  @contest_standings (demo_runtime (ok_envelope standings_result))
    (PyInt 374) (PyInt 1) PyNone (PyList []) (fresh en)
  = (Ok [("contest", [(Contest, PyStr "id"); (Contest, PyStr "name")]);
         ("problems", [(Problem, PyDict [("contestId", PyInt 374); ("index", PyStr "A")])]);
         ("rows", [])],
     mkState (retriever (fresh en))
       ["http://codeforces.com/api/contest.standings?contestId=374&handles=&from=1"]) /\
  exists data c p r contest problems rows,
    @get_data (demo_runtime (ok_envelope standings_result)) "contest.standings"
      [("contestId", PyInt 374); ("count", PyNone); ("handles", PyList []);
       ("from", PyInt 1)] (fresh en)
    = (Ok data,
       mkState (retriever (fresh en))
         ["http://codeforces.com/api/contest.standings?contestId=374&handles=&from=1"]) /\
    py_getitem data "contest" = Ok c /\
    py_getitem data "problems" = Ok p /\
    py_getitem data "rows" = Ok r /\
    obind (py_iter c) (omap (@construct (demo_runtime (ok_envelope standings_result)) Contest))
      = Ok contest /\
    obind (py_iter p) (omap (@construct (demo_runtime (ok_envelope standings_result)) Problem))
      = Ok problems /\
    obind (py_iter r)
      (omap (@construct (demo_runtime (ok_envelope standings_result)) RanklistRow))
      = Ok rows /\
    [("contest", [(Contest, PyStr "id"); (Contest, PyStr "name")]);
     ("problems", [(Problem, PyDict [("contestId", PyInt 374); ("index", PyStr "A")])]);
     ("rows", [])]
    = [("contest", contest); ("problems", problems); ("rows", rows)] /\
    (forall fields,
       c = PyDict fields ->
       omap (@construct (demo_runtime (ok_envelope standings_result)) Contest)
         (map (fun kv => PyStr (fst kv)) fields) = Ok contest /\
       List.length contest = List.length fields) /\
    (forall items,
       p = PyList items ->
       omap (@construct (demo_runtime (ok_envelope standings_result)) Problem) items
         = Ok problems) /\
    (forall items,
       r = PyList items ->
       omap (@construct (demo_runtime (ok_envelope standings_result)) RanklistRow) items
         = Ok rows).
Proof.
  split; [reflexivity|].
  apply (@contest_standings_builds_lists (demo_runtime (ok_envelope standings_result))
           (PyInt 374) (PyInt 1) PyNone (PyList []) (fresh en)).
  reflexivity.
Defined.

Lemma check_json_not_object_witness :
  exists msg, @__check_json (demo_runtime (PyList [])) "" = Raise (TypeError msg).
Proof.
  apply (@check_json_not_object (demo_runtime (PyList [])) "" (PyList []));
    [reflexivity | intros fields E; discriminate E].
Defined.

Lemma check_json_outcomes_witness :
  (exists X, @__check_json (demo_runtime (failed_envelope "no such user")) "" = Ok X) \/
  (exists c,
     @__check_json (demo_runtime (failed_envelope "no such user")) ""
       = Raise (ValueError [c])) \/
  (exists name,
     @__check_json (demo_runtime (failed_envelope "no such user")) ""
       = Raise (ValueError [PyStr "Missed required field"; PyStr name])) \/
  (exists msg,
     @__check_json (demo_runtime (failed_envelope "no such user")) ""
       = Raise (TypeError msg)).
Proof.
  apply (@check_json_outcomes (demo_runtime (failed_envelope "no such user")) ""
           (failed_envelope "no such user")).
  reflexivity.
Defined.

Lemma get_data_offline_witness :
  @get_data offline_runtime "user.rating" [("handle", PyStr "tourist")] (fresh en)
  = (Raise (LibraryError "URLError" "unreachable"),
     mkState (retriever (fresh en))
       ["http://codeforces.com/api/user.rating?handle=tourist"]).
Proof.
  apply (@get_data_propagates_library_errors offline_runtime "user.rating"
           [("handle", PyStr "tourist")] (fresh en)
           "http://codeforces.com/api/user.rating?handle=tourist").
  - reflexivity.
  - left. reflexivity.
Defined.

Lemma generate_url_without_parameters_witness :
  @__generate_url (demo_runtime PyNone) "contest.list" [] (fresh en)
    = (Ok "http://codeforces.com/api/contest.list", fresh en) /\
  @__generate_url (demo_runtime PyNone) "problemset.problems" [("tags", PyNone)] (fresh en)
    = (Ok "http://codeforces.com/api/problemset.problems?", fresh en).
Proof.
  split.
  - exact (proj1 (@generate_url_without_parameters (demo_runtime PyNone) "contest.list"
                    (fresh en) "http://codeforces.com/api/" eq_refl)).
  - apply (proj2 (@generate_url_without_parameters (demo_runtime PyNone)
                    "problemset.problems" (fresh en) "http://codeforces.com/api/" eq_refl)).
    + discriminate.
    + repeat constructor.
Defined.


Lemma get_data_non_str_items_witness :
  exists msg,
    @get_data (demo_runtime PyNone) "user.info"
      [("handles", PyList [PyStr "tourist"; PyInt 1])] (fresh en)
    = (Raise (TypeError msg), fresh en).
Proof.
  apply (@get_data_rejects_non_str_items (demo_runtime PyNone) "user.info"
           [("handles", PyList [PyStr "tourist"; PyInt 1])] "handles"
           [PyStr "tourist"; PyInt 1] (PyInt 1) (fresh en) "http://codeforces.com/api/").
  - reflexivity.
  - left. reflexivity.
  - right. left. reflexivity.
  - reflexivity.
Defined.

Lemma reachable_base_witness :
  @base
    (snd (@set_language (demo_runtime PyNone) (PyStr "ru")
            (@after (demo_runtime PyNone) (Op_user_rating (PyStr "tourist")) (fresh en))))
  = (Ok "http://codeforces.ru/api/",
     snd (@set_language (demo_runtime PyNone) (PyStr "ru")
            (@after (demo_runtime PyNone) (Op_user_rating (PyStr "tourist")) (fresh en)))).
Proof.
  apply (@reachable_base (demo_runtime PyNone)).
  apply reach_set_language. apply reach_operation.
  apply (@reach_api (demo_runtime PyNone) (PyStr "en")). reflexivity.
Defined.

Lemma problemset_recent_status_bounds_witness :
  snd (@problemset_recent_status (demo_runtime PyNone) (PyInt 1000) (fresh en))
    = mkState (retriever (fresh en))
        ["http://codeforces.com/api/problemset.recentStatus?count=1000"] /\
  @problemset_recent_status (demo_runtime PyNone) (PyInt 1001) (fresh en)
    = (Raise (AssertionError None), fresh en) /\
  @problemset_recent_status (demo_runtime PyNone) (PyInt 0) (fresh en)
    = (Raise (AssertionError None), fresh en).
Proof.
  split; [|split].
  - apply (proj1 (@problemset_recent_status_bounds (demo_runtime PyNone) 1000 (fresh en)
                    "http://codeforces.com/api/" eq_refl)).
    lia.
  - apply (proj2 (@problemset_recent_status_bounds (demo_runtime PyNone) 1001 (fresh en)
                    "http://codeforces.com/api/" eq_refl)).
    lia.
  - apply (proj2 (@problemset_recent_status_bounds (demo_runtime PyNone) 0 (fresh en)
                    "http://codeforces.com/api/" eq_refl)).
    lia.
Defined.

Lemma user_status_request_witness :
  snd (@user_status (demo_runtime PyNone) (PyStr "tourist") (PyInt 1) (PyInt 10) (fresh en))
    = mkState (retriever (fresh en))
        ["http://codeforces.com/api/user.status?handle=tourist&count=10&from=1"] /\
  snd (@user_status (demo_runtime PyNone) (PyStr "tourist") (PyInt 1) PyNone (fresh en))
    = mkState (retriever (fresh en))
        ["http://codeforces.com/api/user.status?handle=tourist&from=1"].
Proof.
  split.
  - exact (@user_status_request (demo_runtime PyNone) "tourist" 1 (Some 10) (fresh en)
             "http://codeforces.com/api/" eq_refl).
  - exact (@user_status_request (demo_runtime PyNone) "tourist" 1 None (fresh en)
             "http://codeforces.com/api/" eq_refl).
Defined.

Lemma contest_status_request_witness :
  snd (@contest_status (demo_runtime PyNone) (PyInt 374) PyNone (PyInt 1) (PyInt 5)
         (fresh ru))
    = mkState (retriever (fresh ru))
        ["http://codeforces.ru/api/contest.status?contestId=374&count=5&from=1"] /\
  snd (@contest_status (demo_runtime PyNone) (PyInt 374) (PyStr "Petr") (PyInt 1) PyNone
         (fresh ru))
    = mkState (retriever (fresh ru))
        ["http://codeforces.ru/api/contest.status?contestId=374&handle=Petr&from=1"].
Proof.
  split.
  - exact (@contest_status_request (demo_runtime PyNone) 374 None 1 (Some 5) (fresh ru)
             "http://codeforces.ru/api/" eq_refl).
  - exact (@contest_status_request (demo_runtime PyNone) 374 (Some "Petr") 1 None
             (fresh ru) "http://codeforces.ru/api/" eq_refl).
Defined.

Lemma user_rated_list_request_witness :
  snd (@user_rated_list (demo_runtime PyNone) (PyBool true) (fresh en))
    = mkState (retriever (fresh en))
        ["http://codeforces.com/api/user.ratedList?activeOnly=True"] /\
  @user_rated_list (demo_runtime PyNone) (PyInt 1) (fresh en)
    = (Raise (AssertionError None), fresh en).
Proof.
  split.
  - exact (proj1 (@user_rated_list_request (demo_runtime PyNone) (PyBool true) (fresh en)
                    "http://codeforces.com/api/" eq_refl) true eq_refl).
  - exact (proj2 (@user_rated_list_request (demo_runtime PyNone) (PyInt 1) (fresh en)
                    "http://codeforces.com/api/" eq_refl) eq_refl).
Defined.

Lemma contest_hacks_success_witness :
  @contest_hacks (demo_runtime (ok_envelope (PyList [PyDict [("id", PyInt 1)]; PyNone])))
    (PyInt 374) (fresh en)
  = (Ok [(Hack, PyDict [("id", PyInt 1)]); (Hack, PyNone)],
     mkState (retriever (fresh en))
       ["http://codeforces.com/api/contest.hacks?contestId=374"]).
Proof.
  apply (@contest_hacks_success
           (demo_runtime (ok_envelope (PyList [PyDict [("id", PyInt 1)]; PyNone])))
           374 (fresh en) "http://codeforces.com/api/" [] ""
           [("status", PyStr "OK"); ("result", PyList [PyDict [("id", PyInt 1)]; PyNone])]
           [PyDict [("id", PyInt 1)]; PyNone]);
    reflexivity.
Defined.

Lemma user_rating_remote_failure_witness :
  @user_rating (demo_runtime (failed_envelope "handle: User with handle x not found"))
    (PyStr "x") (fresh en)
  = (Raise (ValueError [PyStr "handle: User with handle x not found"]),
     mkState (retriever (fresh en)) ["http://codeforces.com/api/user.rating?handle=x"]).
Proof.
  apply (@user_rating_remote_failure
           (demo_runtime (failed_envelope "handle: User with handle x not found"))
           "x" (fresh en) "http://codeforces.com/api/" [] ""
           [("status", PyStr "FAILED");
            ("comment", PyStr "handle: User with handle x not found")]
           (PyStr "FAILED"));
    try reflexivity.
  intros E. discriminate E.
Defined.

Lemma contest_standings_request_witness :
  snd (@contest_standings (demo_runtime PyNone) (PyInt 374) (PyInt 1) PyNone
         (PyList [PyStr "tourist"; PyStr "Petr"]) (fresh en))
    = mkState (retriever (fresh en))
        ["http://codeforces.com/api/contest.standings?contestId=374&handles=tourist;Petr&from=1"].
Proof.
  apply (@contest_standings_request (demo_runtime PyNone) 374 1 None ["tourist"; "Petr"]
           (fresh en) "http://codeforces.com/api/").
  - reflexivity.
  - cbn. lia.
Defined.

Lemma contest_list_request_witness :
  snd (@contest_list (demo_runtime PyNone) (PyBool false) (fresh en))
    = mkState (retriever (fresh en)) ["http://codeforces.com/api/contest.list?gym=False"] /\
  snd (@contest_list (demo_runtime PyNone) (PyStr "yes") (fresh en))
    = mkState (retriever (fresh en)) ["http://codeforces.com/api/contest.list?gym=yes"].
Proof.
  split.
  - exact (@contest_list_request (demo_runtime PyNone) (PyBool false) (fresh en)
             "http://codeforces.com/api/" eq_refl eq_refl eq_refl).
  - exact (@contest_list_request (demo_runtime PyNone) (PyStr "yes") (fresh en)
             "http://codeforces.com/api/" eq_refl eq_refl eq_refl).
Defined.

Lemma problemset_problems_request_witness :
  snd (@problemset_problems (demo_runtime PyNone)
         (PyList [PyStr "dp"; PyStr "greedy"]) (fresh en))
    = mkState (retriever (fresh en))
        ["http://codeforces.com/api/problemset.problems?tags=dp;greedy"] /\
  snd (@problemset_problems (demo_runtime PyNone) PyNone (fresh en))
    = mkState (retriever (fresh en)) ["http://codeforces.com/api/problemset.problems?"].
Proof.
  split.
  - exact (@problemset_problems_request (demo_runtime PyNone) (Some ["dp"; "greedy"])
             (fresh en) "http://codeforces.com/api/" eq_refl).
  - exact (@problemset_problems_request (demo_runtime PyNone) None
             (fresh en) "http://codeforces.com/api/" eq_refl).
Defined.

Lemma problemset_problems_missing_field_witness :
  @problemset_problems (demo_runtime (ok_envelope (PyDict [("problems", PyList [])])))
    PyNone (fresh en)
  = (Raise (KeyError (PyStr "problemStatistics")),
     mkState (retriever (fresh en)) ["http://codeforces.com/api/problemset.problems?"]) /\
  @problemset_problems (demo_runtime (ok_envelope (PyDict []))) PyNone (fresh en)
  = (Raise (KeyError (PyStr "problems")),
     mkState (retriever (fresh en)) ["http://codeforces.com/api/problemset.problems?"]).
Proof.
  split.
  - apply (proj2 (@problemset_problems_missing_field
                    (demo_runtime (ok_envelope (PyDict [("problems", PyList [])])))
                    PyNone (fresh en)
                    (mkState (retriever (fresh en))
                       ["http://codeforces.com/api/problemset.problems?"])
                    [("problems", PyList [])] eq_refl) [] []);
      reflexivity.
  - apply (proj1 (@problemset_problems_missing_field
                    (demo_runtime (ok_envelope (PyDict [])))
                    PyNone (fresh en)
                    (mkState (retriever (fresh en))
                       ["http://codeforces.com/api/problemset.problems?"])
                    [] eq_refl)).
    reflexivity.
Defined.



Example standings_query_keys :
  query_keys
    "http://codeforces.com/api/contest.standings?contestId=374&handles=tourist;Petr&from=1"
  = ["contestId"; "handles"; "from"].
Proof. reflexivity. Qed.

Example no_query_keys :
  query_keys "http://codeforces.com/api/problemset.problems?" = [] /\
  query_keys "http://codeforces.com/api/contest.list" = [].
Proof. split; reflexivity. Qed.
